(** * ECS-LCA: the spreadsheet glue of [src/utils/sheets_parser.py]

    A shallow embedding of the four procedures of the module

      - [find_activity]             (the activity resolver),
      - [process_parameters]        (the parameter builder),
      - [create_custom_activities]  (the custom / modified activity builder),
      - [create_foreground]         (the foreground builder),

    followed by the properties of the specification that concern them.

    The module drives a third-party library ([lca_algebraic], imported as
    [agb]) and Python's [eval]; neither is part of the repository.  Both are
    therefore an arbitrary oracle [Agb] acting on an abstract [World]; every
    statement below is quantified over that oracle.  The same record holds
    what the module takes from Python and [pandas] without saying how it is
    done: the string methods [strip], [lower] and [upper], and the sort
    behind [sort_values].  What the module does with the oracle (the order
    of calls, the handling of exceptions, the lines it prints, the
    dictionaries it builds) is modelled as written.

    A run is a function of the world that returns the new world, the trace
    of calls, printed lines and registry assignments it made, and a value
    or the exception that escaped. *)

From Stdlib Require Import ZArith Ascii String List Permutation Sorted.
From stdpp Require Import base decidable option list gmap strings pretty.

Local Open Scope string_scope.
Local Open Scope list_scope.

(** ** Python values read from a sheet *)

(** A cell of a [pandas] row.  [CNaN] is the missing value [numpy.nan],
    [CNone] is Python's [None] (what [row.get] gives for an absent column).
    Floating-point cells other than [nan] are outside the model. *)
Inductive cell : Type :=
| CNaN
| CNone
| CBool (b : bool)
| CInt (z : Z)
| CStr (s : string).

#[global] Instance cell_eq_dec : EqDecision cell.
Proof. solve_decision. Defined.

(** [pd.isna] and [pd.notna] on a scalar. *)
Definition isna (c : cell) : bool :=
  match c with
  | CNaN | CNone => true
  | _ => false
  end.

Definition notna (c : cell) : bool := negb (isna c).

(** [str(x)], which is also what an f-string field [{x}] prints. *)
Definition py_str (c : cell) : string :=
  match c with
  | CNaN => "nan"
  | CNone => "None"
  | CBool true => "True"
  | CBool false => "False"
  | CInt z => pretty z
  | CStr s => s
  end.

(** [type(x).__name__], as it appears in an [AttributeError]. *)
Definition py_type_name (c : cell) : string :=
  match c with
  | CNaN => "float"
  | CNone => "NoneType"
  | CBool _ => "bool"
  | CInt _ => "int"
  | CStr _ => "str"
  end.

(** Equality of dictionary keys: [1 == True] and [0 == False] in Python.
    The keys are cells of a column of names, an object column, whose
    missing cells all hold the one object [numpy.nan]: a dictionary finds
    it again by identity.  (A column of numbers would hand out a fresh
    float for each cell; such keys are outside the model.) *)
Definition cell_key_eqb (a b : cell) : bool :=
  match a, b with
  | CBool x, CInt z | CInt z, CBool x => Z.eqb z (if x then 1 else 0)
  | _, _ => bool_decide (a = b)
  end.

(** ** Strings: [str.strip], [str.lower], [str.upper] on ASCII text

    The builders take the three methods from the environment (the fields
    [py_strip], [py_lower] and [py_upper] below), so nothing is assumed of
    what they do to text outside ASCII.  The functions of this section are
    what the methods do on ASCII text; the small framework runs on them. *)

Definition py_isspace (a : ascii) : bool :=
  let n := nat_of_ascii a in
  ((9 <=? n)%nat && (n <=? 13)%nat) || ((28 <=? n)%nat && (n <=? 32)%nat).

Definition lower_ascii (a : ascii) : ascii :=
  let n := nat_of_ascii a in
  if ((65 <=? n)%nat && (n <=? 90)%nat) then ascii_of_nat (n + 32) else a.

Definition upper_ascii (a : ascii) : ascii :=
  let n := nat_of_ascii a in
  if ((97 <=? n)%nat && (n <=? 122)%nat) then ascii_of_nat (n - 32) else a.

Fixpoint map_string (f : ascii -> ascii) (s : string) : string :=
  match s with
  | EmptyString => EmptyString
  | String a s' => String (f a) (map_string f s')
  end.

Fixpoint lstrip (s : string) : string :=
  match s with
  | EmptyString => EmptyString
  | String a s' => if py_isspace a then lstrip s' else s
  end.

Definition rstrip (s : string) : string := String.rev (lstrip (String.rev s)).

Definition strip (s : string) : string := rstrip (lstrip s).
Definition lower (s : string) : string := map_string lower_ascii s.
Definition upper (s : string) : string := map_string upper_ascii s.

(** ** Sorting a column, on a small scale

    [argsort] as a stable insertion sort: the positions of the keys in
    ascending order of key.  The builder takes the sort from the
    environment (the field [pd_argsort] below); this one serves the small
    framework. *)
Fixpoint insert_key (p : Z * nat) (sorted : list (Z * nat)) : list (Z * nat) :=
  match sorted with
  | [] => [p]
  | q :: rest =>
      if (p.1 <=? q.1)%Z then p :: q :: rest else q :: insert_key p rest
  end.

Definition argsort_stable (keys : list Z) : list nat :=
  map snd (foldr insert_key [] (zip keys (seq 0 (length keys)))).

(** [DataFrame.take(indexer)]: the rows at the given positions, in the
    order of the positions.  An indexer computed by a sort holds positions
    of the table only. *)
Definition take_rows {A} (rows : list A) (indexer : list nat) : list A :=
  omap (fun i => rows !! i) indexer.


(** ** Exceptions and results *)

(** An exception object, an instance of [Exception] (what the handlers of
    the module catch): its class and the text [str(e)] prints. *)
Record exn : Type := Exn { exn_class : string; exn_msg : string }.

Inductive result (A : Type) : Type :=
| Ok (a : A)
| Raise (e : exn).

Arguments Ok {A} a.
Arguments Raise {A} e.

Definition raised {A} (r : result A) : option exn :=
  match r with
  | Ok _ => None
  | Raise e => Some e
  end.

(** ** Python dictionaries, in insertion order *)

Section Dict.
Context {K V : Type} (eqb : K -> K -> bool).

Fixpoint dict_get (k : K) (d : list (K * V)) : option V :=
  match d with
  | [] => None
  | (k', v) :: d' => if eqb k' k then Some v else dict_get k d'
  end.

(** [d[k] = v]: overwrite in place, or append a new entry. *)
Fixpoint dict_set (k : K) (v : V) (d : list (K * V)) : list (K * V) :=
  match d with
  | [] => [(k, v)]
  | (k', v') :: d' =>
      if eqb k' k then (k', v) :: d' else (k', v') :: dict_set k v d'
  end.
End Dict.

(** ** Rows and tables *)

(** A row of a parameter sheet.  The columns read with [row.get] hold
    [CNone] when the sheet has no such column. *)
Record param_row : Type := ParamRow {
  p_ei_activity_name : cell;   (* row["EI activity name"] *)
  p_parameter_number : cell;   (* row["parameter number"] *)
  p_type : cell;               (* row["Type"] *)
  p_default : cell;            (* row["Default"] *)
  p_min : cell;                (* row.get("Min") *)
  p_max : cell;                (* row.get("Max") *)
  p_std : cell;                (* row.get("Std") *)
  p_distrib : cell;            (* row["Distrib"] *)
  p_values : cell;             (* row["Values"] *)
  p_weights : cell;            (* row["Weights"] *)
  p_description : cell;        (* row.get("Description") *)
  p_label : cell               (* row.get("Label") *)
}.

(** A row of a custom, modified or foreground sheet. *)
Record act_row : Type := ActRow {
  ei_activity_name : cell;         (* row["EI activity name"] *)
  loc : cell;                      (* row["loc"] *)
  parameter_number : cell;         (* row["parameter number"] *)
  lca_algebraic_name : cell;       (* row["LCA algebraic name"] *)
  custom_process_name : cell;      (* row["Custom process name"] *)
  modified_process_name : cell     (* row["Modified process name"] *)
}.

(** A row of the sheet-metadata table; [ms_name] is its index label and
    "priority" is a column of integers. *)
Record meta_row : Type := MetaRow {
  ms_name : string;
  ms_priority : Z;
  ms_type : cell;
  ms_location : cell;
  ms_unit : cell;
  ms_original_name : cell;         (* "original EI activity name" *)
  ms_original_location : cell      (* "original EI activity location" *)
}.

(** The keyword arguments of [agb.newFloatParam]; [fa_distrib] is the
    attribute name looked up in [agb.DistributionType]. *)
Record float_args : Type := FloatArgs {
  fa_default : cell;
  fa_min : cell;
  fa_max : cell;
  fa_std : cell;
  fa_distrib : string;
  fa_description : cell;
  fa_label : cell
}.

(** ** The external framework *)

Section Model.
(** [World] is the state of the framework's databases, [Act] an activity
    handle (hashable, compared by [==]), [Obj] any other Python object:
    a parameter, the value of an evaluated expression. *)
Context {World Act Obj : Type} `{EqDecision Act}.

(** The argument [values=] of [agb.newEnumParam]: the raw cell, or what
    [eval] or the dictionary comprehension made of it. *)
Inductive pyarg : Type :=
| ArgCell (c : cell)
| ArgObj (o : Obj).

Record Agb : Type := {
  (* agb.findActivity(name, db_name=db) *)
  agb_findActivity : cell -> string -> World -> World * result (option Act);
  (* agb.findTechAct(name) and agb.findTechAct(name, loc=l) *)
  agb_findTechAct : cell -> option cell -> World -> World * result (option Act);
  agb_newFloatParam : string -> float_args -> World -> World * result Obj;
  agb_newBoolParam : string -> cell -> World -> World * result Obj;
  (* agb.newEnumParam(name, values=, default=, description=) *)
  agb_newEnumParam : string -> pyarg -> cell -> cell -> World -> World * result Obj;
  (* agb.newActivity(db, name, unit, exchanges=d); the result is dropped *)
  agb_newActivity : string -> cell -> cell -> list (Act * Obj) -> World -> World * result unit;
  agb_copyActivity : string -> Act -> string -> World -> World * result Act;
  (* act.updateExchanges(d), d mapping a name to dict(amount=v) *)
  agb_updateExchanges : Act -> list (cell * Obj) -> World -> World * result unit;
  (* eval(expr, {}, registry) *)
  py_eval : string -> gmap string Obj -> World -> World * result Obj;
  (* eval(expr), in the scope of process_parameters *)
  py_eval_here : string -> World -> World * result Obj;
  (* bool(o) *)
  py_truthy : Obj -> bool;
  (* {k: v for k, v in zip(values, weights)} *)
  py_zip_dict : pyarg -> Obj -> result Obj;
  (* a + b on evaluated amounts, which does not raise *)
  py_add : Obj -> Obj -> Obj;
  (* str(o) *)
  py_str_obj : Obj -> string;
  (* s.strip(), s.lower(), s.upper() on a str *)
  py_strip : string -> string;
  py_lower : string -> string;
  py_upper : string -> string;
  (* the indexer DataFrame.sort_values(by=...) computes from the key
     column with its default sort: the positions of the keys in sorted
     order; the order it gives to equal keys is its own *)
  pd_argsort : list Z -> list nat
}.

(** The calls the module makes, with their arguments. *)
Inductive call : Type :=
| FindActivity (name : cell) (db : string)
| FindTechAct (name : cell) (location : option cell)
| NewFloatParam (name : string) (args : float_args)
| NewBoolParam (name : string) (default : cell)
| NewEnumParam (name : string) (values : pyarg) (default description : cell)
| NewActivity (db : string) (name unit_ : cell) (exchanges : list (Act * Obj))
| CopyActivity (db : string) (original : Act) (name : string)
| UpdateExchanges (activity : Act) (exchanges : list (cell * Obj))
| Eval (expr : string) (locals : gmap string Obj)
| EvalHere (expr : string).

(** What a run leaves behind, in order: a call together with the
    exception it raised, if any; a printed line; an assignment
    [parameter_registry[k] = ...]. *)
Inductive event : Type :=
| Call (c : call) (err : option exn)
| Print (line : string)
| SetItem (key : string).

(** ** The monad: state, trace and exceptions *)

Definition M (A : Type) : Type := World -> World * list event * result A.

Definition ret {A} (a : A) : M A := fun w => (w, [], Ok a).

Definition bind {A B} (m : M A) (k : A -> M B) : M B :=
  fun w =>
    match m w with
    | (w1, t1, Ok a) => let '(w2, t2, r) := k a w1 in (w2, t1 ++ t2, r)
    | (w1, t1, Raise e) => (w1, t1, Raise e)
    end.

Definition raise {A} (e : exn) : M A := fun w => (w, [], Raise e).

(** [try: m except Exception as e: h e] *)
Definition try_except {A} (m : M A) (h : exn -> M A) : M A :=
  fun w =>
    match m w with
    | (w1, t1, Raise e) => let '(w2, t2, r) := h e w1 in (w2, t1 ++ t2, r)
    | out => out
    end.

Definition print (line : string) : M unit := fun w => (w, [Print line], Ok tt).

Definition set_item (key : string) : M unit := fun w => (w, [SetItem key], Ok tt).

(** One call of the framework: the oracle answers, the trace records. *)
Definition invoke {A} (c : call) (f : World -> World * result A) : M A :=
  fun w => let '(w', r) := f w in (w', [Call c (raised r)], r).

Notation "x <- m ;; k" := (bind m (fun x => k))
  (at level 100, m at next level, right associativity).
Notation "m ;;; k" := (bind m (fun _ => k))
  (at level 100, right associativity).

Variable agb : Agb.

(** ** [find_activity] (lines 5-31) *)

(** The two guarded lookups in the custom database share their shape:
    [Some a] stands for [return a] from inside the [try], [None] for
    falling through to the next statement. *)
Definition lookup_custom (what : string) (name : cell) (custom_db : string)
  : M (option (option Act)) :=
  if notna name then
    try_except
      (a <- invoke (FindActivity name custom_db)
                   (agb_findActivity agb name custom_db) ;;
       ret (Some a))
      (fun e =>
         print ("Failed to find " ++ what ++ " '" ++ py_str name
                ++ "' in custom database '" ++ custom_db ++ "': "
                ++ exn_msg e) ;;;
         ret None)
  else ret None.

Definition lookup_base (name location : cell) : M (option Act) :=
  try_except
    (if notna location
     then invoke (FindTechAct name (Some location))
                 (agb_findTechAct agb name (Some location))
     else invoke (FindTechAct name None) (agb_findTechAct agb name None))
    (fun e =>
       print ("Failed to find activity '" ++ py_str name
              ++ "' in Ecoinvent for location '" ++ py_str location
              ++ "': " ++ exn_msg e) ;;;
       ret None).

(** The value is the activity handle, or [None] for Python's [None]. *)
Definition find_activity
    (name location custom_name modified_name : cell) (custom_db : string)
  : M (option Act) :=
  r1 <- lookup_custom "activity" modified_name custom_db ;;
  match r1 with
  | Some a => ret a
  | None =>
      r2 <- lookup_custom "custom process" custom_name custom_db ;;
      match r2 with
      | Some a => ret a
      | None => lookup_base name location
      end
  end.

(** ** [process_parameters] (lines 35-90) *)

(** Line 43: [params_df["Type"].astype(str).str.strip().str.lower()],
    applied to the whole column before the loop starts. *)
Definition normalize_type (row : param_row) : param_row :=
  ParamRow (p_ei_activity_name row) (p_parameter_number row)
           (CStr (py_lower agb (py_strip agb (py_str (p_type row)))))
           (p_default row) (p_min row) (p_max row) (p_std row)
           (p_distrib row) (p_values row) (p_weights row)
           (p_description row) (p_label row).

(** Line 46: [str(sheet_name) + "_" + str(row["parameter number"])]. *)
Definition param_name (sheet_name : string) (number : cell) : string :=
  sheet_name ++ "_" ++ py_str number.

(** [x.strip().lower()] on a cell: only a [str] has the method. *)
Definition strip_lower (c : cell) : M string :=
  match c with
  | CStr s => ret (py_lower agb (py_strip agb s))
  | _ => raise (Exn "AttributeError"
                    ("'" ++ py_type_name c ++ "' object has no attribute 'strip'"))
  end.

(** [eval(c) if isinstance(c, str) else other] *)
Definition eval_if_str {A} (c : cell) (wrap : Obj -> A) (other : A) : M A :=
  match c with
  | CStr s => o <- invoke (EvalHere s) (py_eval_here agb s) ;; ret (wrap o)
  | _ => ret other
  end.

(** Lines 54-84: the parameter a row asks for, or the exception. *)
Definition new_param (name param_type : string) (row : param_row) : M Obj :=
  if String.eqb param_type "float" then
    match p_distrib row with
    | CStr d =>
        let args := FloatArgs (p_default row) (p_min row) (p_max row)
                              (p_std row) (py_upper agb d)
                              (p_description row) (p_label row) in
        invoke (NewFloatParam name args) (agb_newFloatParam agb name args)
    | c => raise (Exn "AttributeError"
                      ("'" ++ py_type_name c ++ "' object has no attribute 'upper'"))
    end
  else if String.eqb param_type "bool" then
    invoke (NewBoolParam name (p_default row))
           (agb_newBoolParam agb name (p_default row))
  else if String.eqb param_type "enum" then
    values <- eval_if_str (p_values row) ArgObj (ArgCell (p_values row)) ;;
    weights <- eval_if_str (p_weights row) Some None ;;
    values <- match weights with
              | Some w =>
                  if py_truthy agb w then
                    match py_zip_dict agb values w with
                    | Ok d => ret (ArgObj d)
                    | Raise e => raise e
                    end
                  else ret values
              | None => ret values
              end ;;
    invoke (NewEnumParam name values (p_default row) (p_description row))
           (agb_newEnumParam agb name values (p_default row) (p_description row))
  else
    raise (Exn "ValueError" ("Unsupported parameter type: " ++ param_type)).

(** Lines 53-90: the [try] of one row.  The registry is the caller's
    dictionary; its assignment is the returned map and a [SetItem]. *)
Definition register_param (name param_type : string) (row : param_row)
    (registry : gmap string Obj) : M (gmap string Obj) :=
  try_except
    (param <- new_param name param_type row ;;
     set_item name ;;;
     print ("Parameter created and registered: " ++ name) ;;;
     ret (<[name := param]> registry))
    (fun e =>
       print ("Error creating parameter '" ++ name ++ "': " ++ exn_msg e) ;;;
       ret registry).

(** Lines 45-90: the loop.  [index] counts the rows from the top, as the
    labels of a sheet loaded without an index column do. *)
Fixpoint params_loop (sheet_name : string) (index : nat)
    (rows : list param_row) (registry : gmap string Obj)
  : M (gmap string Obj) :=
  match rows with
  | [] => ret registry
  | row :: rest =>
      let name := param_name sheet_name (p_parameter_number row) in
      param_type <- strip_lower (p_type row) ;;
      if isna (p_ei_activity_name row) then
        print ("Skipping row " ++ pretty index
               ++ " as 'EI activity name' is NaN.") ;;;
        ret registry
      else
        registry <- register_param name param_type row registry ;;
        params_loop sheet_name (S index) rest registry
  end.

Definition process_parameters (params_df : list param_row)
    (parameter_registry : gmap string Obj) (sheet_name : string)
  : M (gmap string Obj) :=
  params_loop sheet_name 0 (map normalize_type params_df) parameter_registry.

(** ** [create_custom_activities] (lines 94-195) *)

(** [d[key]] on a dictionary of sheets. *)
Definition getitem {A} (d : gmap string A) (key : string) : M A :=
  match d !! key with
  | Some x => ret x
  | None => raise (Exn "KeyError" ("'" ++ key ++ "'"))
  end.

(** Line 138 and its like: [str(sheet_name) + "_" + str(number)] is the
    expression handed to [eval(expr, {}, parameter_registry)]. *)
Definition eval_parameter (sheet_name : string) (number : cell)
    (parameter_registry : gmap string Obj) : M Obj :=
  let expr := param_name sheet_name number in
  invoke (Eval expr parameter_registry) (py_eval agb expr parameter_registry).

(** Lines 139-142: add to the entry of the activity, or create it. *)
Definition accumulate (activity : Act) (value : Obj)
    (accumulated : list (Act * Obj)) : list (Act * Obj) :=
  let eqb := fun a b : Act => bool_decide (a = b) in
  match dict_get eqb activity accumulated with
  | Some old => dict_set eqb activity (py_add agb old value) accumulated
  | None => dict_set eqb activity value accumulated
  end.

(** Lines 120-145: one row of a custom sheet below the terminator test. *)
Definition custom_row (sheet_name OS_database : string)
    (parameter_registry : gmap string Obj) (index : nat) (row : act_row)
    (accumulated : list (Act * Obj)) : M (list (Act * Obj)) :=
  ei_activity <- find_activity (ei_activity_name row) (loc row)
                               (custom_process_name row)
                               (modified_process_name row) OS_database ;;
  match ei_activity with
  | None =>
      print ("Skipping row " ++ pretty index ++ " in sheet '" ++ sheet_name
             ++ "' due to unresolved activity issues.") ;;;
      ret accumulated
  | Some activity =>
      try_except
        (value <- eval_parameter sheet_name (parameter_number row)
                                 parameter_registry ;;
         ret (accumulate activity value accumulated))
        (fun e =>
           print ("Error in parameter expression for activity in row "
                  ++ pretty index ++ ": " ++ exn_msg e) ;;;
           ret accumulated)
  end.

(** Lines 114-145: the row loop of a custom sheet. *)
Fixpoint custom_rows (sheet_name OS_database : string)
    (parameter_registry : gmap string Obj) (index : nat)
    (rows : list act_row) (accumulated : list (Act * Obj))
  : M (list (Act * Obj)) :=
  match rows with
  | [] => ret accumulated
  | row :: rest =>
      if isna (ei_activity_name row) then
        print ("Skipping row " ++ pretty index ++ " in sheet '" ++ sheet_name
               ++ "' as 'EI activity name' is NaN.") ;;;
        ret accumulated
      else
        accumulated <- custom_row sheet_name OS_database parameter_registry
                                  index row accumulated ;;
        custom_rows sheet_name OS_database parameter_registry (S index)
                    rest accumulated
  end.

Definition newline : string := String (ascii_of_nat 10) EmptyString.

(** Lines 109-151: the branch of a sheet of type "custom". *)
Definition custom_sheet (sheet_name : string) (sheet_unit : cell)
    (sheet_df : list act_row) (OS_database : string)
    (parameter_registry : gmap string Obj) : M unit :=
  print ("Processing sheet: " ++ sheet_name) ;;;
  accumulated <- custom_rows sheet_name OS_database parameter_registry 0
                             sheet_df [] ;;
  try_except
    (invoke (NewActivity OS_database (CStr sheet_name) sheet_unit accumulated)
            (agb_newActivity agb OS_database (CStr sheet_name) sheet_unit
                             accumulated))
    (fun e =>
       print ("Error creating custom activity '" ++ sheet_name ++ "': "
              ++ exn_msg e ++ " " ++ newline)).

(** Lines 173-182: one row of a modified sheet.  The value stored under
    a name stands for [dict(amount=value)]. *)
Definition modified_row (modified_activity_name : string)
    (parameter_registry : gmap string Obj) (sheet_row : act_row)
    (exchanges_dict : list (cell * Obj)) : M (list (cell * Obj)) :=
  let name_TBM := ei_activity_name sheet_row in
  try_except
    (amount <- eval_parameter modified_activity_name
                              (parameter_number sheet_row)
                              parameter_registry ;;
     print ("Evaluated amount for '" ++ py_str name_TBM ++ "': "
            ++ py_str_obj agb amount) ;;;
     ret (dict_set cell_key_eqb name_TBM amount exchanges_dict))
    (fun e =>
       print ("Error evaluating parameter expression '"
              ++ param_name modified_activity_name
                            (parameter_number sheet_row)
              ++ "' for activity '" ++ py_str name_TBM ++ "': "
              ++ exn_msg e) ;;;
       ret exchanges_dict).

(** Lines 172-182: the row loop of a modified sheet; it has no test of
    the "EI activity name" cell. *)
Fixpoint modified_rows (modified_activity_name : string)
    (parameter_registry : gmap string Obj) (rows : list act_row)
    (exchanges_dict : list (cell * Obj)) : M (list (cell * Obj)) :=
  match rows with
  | [] => ret exchanges_dict
  | sheet_row :: rest =>
      exchanges_dict <- modified_row modified_activity_name parameter_registry
                                     sheet_row exchanges_dict ;;
      modified_rows modified_activity_name parameter_registry rest
                    exchanges_dict
  end.

(** Lines 154-192: the branch of a sheet of type "modified". *)
Definition modified_sheet (sheet_name : string) (meta : meta_row)
    (OS_database_dataframes : gmap string (list act_row))
    (OS_database : string) (parameter_registry : gmap string Obj) : M unit :=
  try_except
    (original <- invoke (FindTechAct (ms_original_name meta)
                                     (Some (ms_original_location meta)))
                        (agb_findTechAct agb (ms_original_name meta)
                                         (Some (ms_original_location meta))) ;;
     match original with
     | None =>
         print ("Skipping copy and update for " ++ sheet_name
                ++ " due to unresolved activity issues.")
     | Some original_activity =>
         new_activity <- invoke (CopyActivity OS_database original_activity
                                              sheet_name)
                                (agb_copyActivity agb OS_database
                                                  original_activity sheet_name) ;;
         print ("Copied activity: " ++ sheet_name) ;;;
         sheet_data <- getitem OS_database_dataframes sheet_name ;;
         exchanges_dict <- modified_rows sheet_name parameter_registry
                                         sheet_data [] ;;
         try_except
           (invoke (UpdateExchanges new_activity exchanges_dict)
                   (agb_updateExchanges agb new_activity exchanges_dict) ;;;
            print ("Updated exchanges for activity: " ++ sheet_name))
           (fun e =>
              print ("Error updating exchanges for activity '" ++ sheet_name
                     ++ "': " ++ exn_msg e))
     end)
    (fun e =>
       print ("Error in copying or updating activity '" ++ sheet_name
              ++ "': " ++ exn_msg e)).

(** [custom_meta_data_DF.sort_values(by="priority")]: the rows of the
    table, taken at the positions the sort of the priority column gives. *)
Definition sort_values (table : list meta_row) : list meta_row :=
  take_rows table (pd_argsort agb (map ms_priority table)).

(** Lines 99-104: [.sort_values(by="priority").index.tolist()]. *)
Definition sorted_sheets (custom_meta_data_DF : list meta_row) : list string :=
  map ms_name (sort_values custom_meta_data_DF).

(** [custom_meta_data_DF.loc[sheet_name]] as the tests of lines 108 and
    153 use it: a label carried by two rows makes [.loc] a table and the
    truth value of the comparison ambiguous. *)
Definition meta_loc (custom_meta_data_DF : list meta_row) (sheet_name : string)
  : M meta_row :=
  match List.filter (fun m => String.eqb (ms_name m) sheet_name)
                    custom_meta_data_DF with
  | [m] => ret m
  | [] => raise (Exn "KeyError" ("'" ++ sheet_name ++ "'"))
  | _ => raise (Exn "ValueError"
                    "The truth value of a Series is ambiguous. Use a.empty, a.bool(), a.item(), a.any() or a.all().")
  end.

Definition cell_is (c : cell) (s : string) : bool := bool_decide (c = CStr s).

(** Lines 107-192: the body of the loop over the sheets. *)
Definition process_sheet (custom_meta_data_DF : list meta_row)
    (OS_database_dataframes : gmap string (list act_row))
    (OS_database : string) (parameter_registry : gmap string Obj)
    (sheet_name : string) : M unit :=
  sheet_df <- getitem OS_database_dataframes sheet_name ;;
  meta <- meta_loc custom_meta_data_DF sheet_name ;;
  (if cell_is (ms_type meta) "custom"
   then custom_sheet sheet_name (ms_unit meta) sheet_df OS_database
                     parameter_registry
   else ret tt) ;;;
  (if cell_is (ms_type meta) "modified"
   then modified_sheet sheet_name meta OS_database_dataframes OS_database
                       parameter_registry
   else ret tt).

Fixpoint for_each {A} (body : A -> M unit) (items : list A) : M unit :=
  match items with
  | [] => ret tt
  | x :: rest => body x ;;; for_each body rest
  end.

Definition create_custom_activities (custom_meta_data_DF : list meta_row)
    (OS_database_dataframes : gmap string (list act_row))
    (OS_database : string) (parameter_registry : gmap string Obj) : M unit :=
  for_each (process_sheet custom_meta_data_DF OS_database_dataframes
                          OS_database parameter_registry)
           (sorted_sheets custom_meta_data_DF) ;;;
  print "Finished processing all sheets.".

(** ** [create_foreground] (lines 197-231) *)

(** Lines 212-231: one row below the terminator test. *)
Definition foreground_row (selected_foreground OS_database : string)
    (parameter_registry : gmap string Obj) (row : act_row) : M unit :=
  let new_activity_name := lca_algebraic_name row in
  ei_activity <- find_activity (ei_activity_name row) (loc row)
                               (custom_process_name row)
                               (modified_process_name row) OS_database ;;
  match ei_activity with
  | None =>
      print ("Skipping creation of " ++ py_str new_activity_name
             ++ " due to unresolved activity issues.")
  | Some activity =>
      exchanges <-
        try_except
          (value <- eval_parameter selected_foreground (parameter_number row)
                                   parameter_registry ;;
           ret (Some [(activity, value)]))
          (fun e =>
             print ("Error in parameter expression for activity '"
                    ++ py_str new_activity_name ++ "': " ++ exn_msg e) ;;;
             ret None) ;;
      match exchanges with
      | None => ret tt
      | Some exchanges =>
          try_except
            (invoke (NewActivity OS_database new_activity_name (CStr "unit")
                                 exchanges)
                    (agb_newActivity agb OS_database new_activity_name
                                     (CStr "unit") exchanges) ;;;
             print ("Activity created: " ++ py_str new_activity_name))
            (fun e =>
               print ("Error creating activity '" ++ py_str new_activity_name
                      ++ "': " ++ exn_msg e))
      end
  end.

Fixpoint foreground_rows (selected_foreground OS_database : string)
    (parameter_registry : gmap string Obj) (index : nat)
    (rows : list act_row) : M unit :=
  match rows with
  | [] => ret tt
  | row :: rest =>
      if isna (ei_activity_name row) then
        print ("Stopping processing at index " ++ pretty index
               ++ " as 'EI activity name' is NaN.")
      else
        foreground_row selected_foreground OS_database parameter_registry row ;;;
        foreground_rows selected_foreground OS_database parameter_registry
                        (S index) rest
  end.


End Model.

Arguments Agb : clear implicits.
Arguments call : clear implicits.
Arguments event : clear implicits.
Arguments M : clear implicits.

Notation "x <- m ;; k" := (bind m (fun x => k))
  (at level 100, m at next level, right associativity).
Notation "m ;;; k" := (bind m (fun _ => k))
  (at level 100, right associativity).

(** ** Reading the outcome of a run *)

Definition out_world {W E A} (o : W * list E * result A) : W := o.1.1.
Definition out_trace {W E A} (o : W * list E * result A) : list E := o.1.2.
Definition out_result {W E A} (o : W * list E * result A) : result A := o.2.

(** Every call that raised is followed at once by a printed line. *)
Fixpoint failures_logged {Act Obj} (trace : list (event Act Obj)) : bool :=
  match trace with
  | [] => true
  | Call _ (Some _) :: rest =>
      match rest with
      | Print _ :: rest' => failures_logged rest'
      | _ => false
      end
  | _ :: rest => failures_logged rest
  end.

(** The keys assigned in the registry, in order. *)
Fixpoint assigned_keys {Act Obj} (trace : list (event Act Obj)) : list string :=
  match trace with
  | [] => []
  | SetItem k :: rest => k :: assigned_keys rest
  | _ :: rest => assigned_keys rest
  end.

(** The names given to [agb.newActivity], in order. *)
Fixpoint created_names {Act Obj} (trace : list (event Act Obj)) : list cell :=
  match trace with
  | [] => []
  | Call (NewActivity _ name _ _) _ :: rest => name :: created_names rest
  | _ :: rest => created_names rest
  end.

Definition is_new_activity {Act Obj} (ev : event Act Obj) : bool :=
  match ev with
  | Call (NewActivity _ _ _ _) _ => true
  | _ => false
  end.

Definition is_base_lookup {Act Obj} (ev : event Act Obj) : bool :=
  match ev with
  | Call (FindTechAct _ _) _ => true
  | _ => false
  end.

(** ** A small framework to run the module on

    Activities are their names and objects are integers.  The world is the
    list of the activities created so far in the custom database; the base
    database holds "steel" and "electricity" everywhere and "heat" only
    when a location is given.  [eval] looks a name up in its locals. *)
Module Toy.

Definition not_found (what : string) : exn :=
  Exn "Exception" ("no activity named " ++ what).

Definition base_has (name : string) (location : option cell) : bool :=
  match location with
  | Some _ => bool_decide (name ∈ ["steel"; "electricity"; "heat"])
  | None => bool_decide (name ∈ ["steel"; "electricity"])
  end.

Definition int_of (c : cell) : Z :=
  match c with
  | CInt z => z
  | CBool true => 1
  | _ => 0
  end.

Definition agb : Agb (list string) string Z := {|
  agb_findActivity name db w :=
    if bool_decide (py_str name ∈ w) then (w, Ok (Some (py_str name)))
    else (w, Raise (not_found (py_str name)));
  agb_findTechAct name location w :=
    if base_has (py_str name) location then (w, Ok (Some (py_str name)))
    else (w, Raise (not_found (py_str name)));
  agb_newFloatParam name args w := (w, Ok (int_of (fa_default args)));
  agb_newBoolParam name default w := (w, Ok (int_of default));
  agb_newEnumParam name values default description w := (w, Ok (int_of default));
  agb_newActivity db name unit_ exchanges w :=
    if bool_decide (py_str name ∈ w)
    then (w, Raise (Exn "Exception" ("duplicate activity " ++ py_str name)))
    else (py_str name :: w, Ok tt);
  agb_copyActivity db original name w := (name :: w, Ok name);
  agb_updateExchanges activity exchanges w := (w, Ok tt);
  py_eval expr locals w :=
    match locals !! expr with
    | Some v => (w, Ok v)
    | None => (w, Raise (Exn "NameError" ("name '" ++ expr ++ "' is not defined")))
    end;
  py_eval_here expr w :=
    (w, Raise (Exn "NameError" ("name '" ++ expr ++ "' is not defined")));
  py_truthy o := negb (Z.eqb o 0);
  py_zip_dict values weights := Ok weights;
  py_add := Z.add;
  py_str_obj := pretty;
  py_strip := strip;
  py_lower := lower;
  py_upper := upper;
  pd_argsort := argsort_stable
|}.

Definition row (name location : cell) (number : Z) (custom modified : cell)
  : act_row :=
  ActRow name location (CInt number) (CStr ("act_" ++ pretty number))
         custom modified.

Definition prow (name : cell) (number : Z) (type default : cell) : param_row :=
  ParamRow name (CInt number) type default CNone CNone CNone (CStr "fixed")
           CNaN CNaN CNone CNone.

Definition blank : act_row := ActRow CNaN CNaN CNaN CNaN CNaN CNaN.

Definition pblank : param_row :=
  ParamRow CNaN CNaN CNaN CNaN CNone CNone CNone CNaN CNaN CNaN CNone CNone.

Definition sheet_meta (name : string) (priority : Z) (type : string)
    (original : cell) : meta_row :=
  MetaRow name priority (CStr type) (CStr "GLO") (CStr "kg") original
          (CStr "GLO").

(** A sheet "S" of two rows that both resolve to "steel", a blank row and
    a row below it; the registry gives the two expressions 2 and 3. *)
Definition steel_twice : list act_row :=
  [row (CStr "steel") CNaN 1 CNaN CNaN;
   row (CStr "steel") (CStr "FR") 2 CNaN CNaN;
   blank;
   row (CStr "electricity") CNaN 2 CNaN CNaN].

Definition two_and_three : gmap string Z := <["S_1" := 2%Z]> (<["S_2" := 3%Z]> ∅).





(** A parameter sheet: a float, a type that does not exist, a bool. *)
Definition mixed_types : list param_row :=
  [prow (CStr "steel") 1 (CStr " Float ") (CInt 4);
   prow (CStr "steel") 2 (CStr "integer") (CInt 4);
   prow (CStr "steel") 3 (CStr "bool") (CBool true)].

(** A modified sheet "M": a named row, a blank row, a named row. *)
Definition past_the_blank : list act_row :=
  [row (CStr "steel") CNaN 1 CNaN CNaN;
   blank;
   row (CStr "heat") CNaN 2 CNaN CNaN].

Definition two_and_three_M : gmap string Z := <["M_1" := 2%Z]> (<["M_2" := 3%Z]> ∅).

(** A float row whose "Distrib" cell is empty, between two bool rows. *)
Definition no_distribution : param_row :=
  ParamRow (CStr "steel") (CInt 2) (CStr "FLOAT ") (CInt 4) CNone CNone CNone
           CNaN CNaN CNaN CNone CNone.



Definition two_and_three_F : gmap string Z := <["F_1" := 2%Z]> (<["F_2" := 3%Z]> ∅).

End Toy.

(** ** Vocabulary of the statements *)

(** The rows a loop reaches: those above the first row whose
    "EI activity name" is missing. *)
Fixpoint before_terminator {R} (name : R -> cell) (rows : list R) : list R :=
  match rows with
  | [] => []
  | row :: rest =>
      if isna (name row) then [] else row :: before_terminator name rest
  end.



Section Vocabulary.
Context {World Act Obj : Type} `{EqDecision Act} (agb : Agb World Act Obj).

(** A name of the custom database yields no match: it is missing and
    nothing happens, or its lookup raises and the failure is printed.
    The relation gives the world and the trace the attempt leaves. *)
Inductive no_match (what : string) (name : cell) (custom_db : string)
    (w : World) : World -> list (event Act Obj) -> Prop :=
| no_match_missing :
    isna name = true ->
    no_match what name custom_db w w []
| no_match_failed w' e :
    notna name = true ->
    agb_findActivity agb name custom_db w = (w', Raise e) ->
    no_match what name custom_db w w'
      [Call (FindActivity name custom_db) (Some e);
       Print ("Failed to find " ++ what ++ " '" ++ py_str name
              ++ "' in custom database '" ++ custom_db ++ "': " ++ exn_msg e)].

(** The keyword [loc=] of the base lookup, for a given location cell. *)
Definition base_location (location : cell) : option cell :=
  if notna location then Some location else None.

(** What the base lookup leaves in the trace and hands back. *)
Definition base_trace (name location : cell) (r : result (option Act))
  : list (event Act Obj) :=
  Call (FindTechAct name (base_location location)) (raised r)
  :: match r with
     | Ok _ => []
     | Raise e =>
         [Print ("Failed to find activity '" ++ py_str name
                 ++ "' in Ecoinvent for location '" ++ py_str location
                 ++ "': " ++ exn_msg e)]
     end.

Definition base_value (r : result (option Act)) : option Act :=
  match r with
  | Ok a => a
  | Raise _ => None
  end.

Implicit Types (w : World) (trace t : list (event Act Obj)).

(** The type tag [process_parameters] dispatches on: the text of the cell
    of the "Type" column after line 43 and then line 47, with [strip] and
    [lower] as Python has them. *)
Definition py_type_tag (c : cell) : string :=
  py_lower agb (py_strip agb (py_lower agb (py_strip agb (py_str c)))).

(** A trace is pending when at most its last call still waits for the
    line that reports it: what a [try] body leaves when it raises. *)
Definition pending trace : bool := failures_logged (trace ++ [Print ""]).

(** [guarded m]: a run of [m] that returns leaves a trace with every
    failure reported; a run that raises leaves a pending one. *)
Definition guarded {A} (m : M World Act Obj A) : Prop :=
  forall w,
    match out_result (m w) with
    | Ok _ => failures_logged (out_trace (m w)) = true
    | Raise _ => pending (out_trace (m w)) = true
    end.

(** [total m]: no run of [m] raises. *)
Definition total {A} (m : M World Act Obj A) : Prop :=
  forall w, exists a, out_result (m w) = Ok a.

(** After line 43 every cell of the "Type" column is a string. *)
Definition type_is_str (row : param_row) : Prop :=
  exists s, p_type row = CStr s.

(** [emits P m]: every event of every run of [m] satisfies [P]. *)
Definition emits {A} (P : event Act Obj -> bool) (m : M World Act Obj A) : Prop :=
  forall w, forallb P (out_trace (m w)) = true.

Definition not_set_item (ev : event Act Obj) : bool :=
  match ev with
  | SetItem _ => false
  | _ => true
  end.

Definition not_new_activity (ev : event Act Obj) : bool :=
  negb (is_new_activity ev).

(** What a row of a custom sheet contributes: the activity it resolves to
    and the value of its expression, or nothing when the row is skipped
    because the resolver found nothing or the evaluation raised; together
    with the world the row leaves. *)
Definition row_outcome (sheet_name OS_database : string)
    (parameter_registry : gmap string Obj) (row : act_row) (w : World)
  : World * option (Act * Obj) :=
  let o := find_activity agb (ei_activity_name row) (loc row)
                         (custom_process_name row) (modified_process_name row)
                         OS_database w in
  match out_result o with
  | Ok (Some activity) =>
      let '(w', r) := py_eval agb (param_name sheet_name (parameter_number row))
                              parameter_registry (out_world o) in
      (w', match r with
           | Ok value => Some (activity, value)
           | Raise _ => None
           end)
  | _ => (out_world o, None)
  end.

(** The contributions of the rows above the terminator, in row order. *)
Fixpoint sheet_outcomes (sheet_name OS_database : string)
    (parameter_registry : gmap string Obj) (rows : list act_row) (w : World)
  : list (Act * Obj) :=
  match rows with
  | [] => []
  | row :: rest =>
      if isna (ei_activity_name row) then []
      else
        let '(w', c) := row_outcome sheet_name OS_database parameter_registry
                                    row w in
        match c with
        | Some p => p :: sheet_outcomes sheet_name OS_database
                                        parameter_registry rest w'
        | None => sheet_outcomes sheet_name OS_database parameter_registry rest w'
        end
  end.

(** The values contributed to one activity, and their sum from left to
    right as Python's [+=] forms it; no value, no entry. *)
Definition values_for (activity : Act) (outcomes : list (Act * Obj)) : list Obj :=
  map snd (List.filter (fun p => bool_decide (p.1 = activity)) outcomes).

Definition sum_of (values : list Obj) : option Obj :=
  match values with
  | [] => None
  | v :: rest => Some (fold_left (py_add agb) rest v)
  end.



Definition is_custom (m : meta_row) : bool := cell_is (ms_type m) "custom".

(** [continues body rest whole]: every run of [whole] is a run of [body]
    that returns a value, followed by the run of [rest] on that value. *)
Definition continues {A B} (body : M World Act Obj A)
    (rest : A -> M World Act Obj B) (whole : M World Act Obj B) : Prop :=
  forall w,
    exists a,
      out_result (body w) = Ok a
      /\ whole w
         = (out_world (rest a (out_world (body w))),
            out_trace (body w) ++ out_trace (rest a (out_world (body w))),
            out_result (rest a (out_world (body w)))).

Definition is_update (ev : event Act Obj) : bool :=
  match ev with
  | Call (UpdateExchanges _ _) _ => true
  | _ => false
  end.

Definition is_eval (ev : event Act Obj) : bool :=
  match ev with
  | Call (Eval _ _) _ => true
  | _ => false
  end.

(** The calls of a trace, in order, without their outcome. *)
Fixpoint calls_of (trace : list (event Act Obj)) : list (call Act Obj) :=
  match trace with
  | [] => []
  | Call c _ :: rest => c :: calls_of rest
  | _ :: rest => calls_of rest
  end.

(** The lookups the resolver can make for its arguments, in the order of
    lines 10-28: the modified name and the custom name when present, then
    the base database. *)
Definition attempted_lookups (name location custom modified : cell)
    (custom_db : string) : list (call Act Obj) :=
  (if notna modified then [FindActivity modified custom_db] else [])
  ++ (if notna custom then [FindActivity custom custom_db] else [])
  ++ [FindTechAct name (base_location location)].

Definition is_print (ev : event Act Obj) : bool :=
  match ev with
  | Print _ => true
  | _ => false
  end.

Definition is_failed_call (ev : event Act Obj) : bool :=
  match ev with
  | Call _ (Some _) => true
  | _ => false
  end.



(** What the rows of a modified sheet evaluate to: the name and the amount
    of each row whose expression evaluates, in row order. *)
Fixpoint modified_outcomes (sheet_name : string)
    (parameter_registry : gmap string Obj) (rows : list act_row) (w : World)
  : list (cell * Obj) :=
  match rows with
  | [] => []
  | row :: rest =>
      let '(w', r) := py_eval agb (param_name sheet_name (parameter_number row))
                              parameter_registry w in
      match r with
      | Ok amount =>
          (ei_activity_name row, amount)
          :: modified_outcomes sheet_name parameter_registry rest w'
      | Raise _ => modified_outcomes sheet_name parameter_registry rest w'
      end
  end.

(** The amounts evaluated for the exchange of a given name. *)
Definition amounts_for (name : string) (outcomes : list (cell * Obj)) : list Obj :=
  map snd (List.filter (fun p => bool_decide (p.1 = CStr name)) outcomes).

(** The same metadata row with another "location" and, unless the sheet
    is custom, another "unit". *)
Definition with_unused_columns (location unit_ : meta_row -> cell)
    (m : meta_row) : meta_row :=
  MetaRow (ms_name m) (ms_priority m) (ms_type m) (location m)
          (if is_custom m then ms_unit m else unit_ m)
          (ms_original_name m) (ms_original_location m).

(** ** What a parameter sheet registers *)

(** What a row of a parameter sheet has to register: its key and the
    handle the framework returns for it, or nothing when building the
    parameter raised; together with the world the row leaves. *)
Definition param_outcome (sheet_name : string) (row : param_row) (w : World)
  : World * option (string * Obj) :=
  let name := param_name sheet_name (p_parameter_number row) in
  let o := new_param agb name (py_type_tag (p_type row)) row w in
  (out_world o,
   match out_result o with
   | Ok param => Some (name, param)
   | Raise _ => None
   end).

(** The keys and handles of the rows above the terminator, in row order. *)
Fixpoint registered (sheet_name : string) (rows : list param_row) (w : World)
  : list (string * Obj) :=
  match rows with
  | [] => []
  | row :: rest =>
      if isna (p_ei_activity_name row) then []
      else
        let '(w', c) := param_outcome sheet_name row w in
        match c with
        | Some p => p :: registered sheet_name rest w'
        | None => registered sheet_name rest w'
        end
  end.

(** The handles registered under one key, in row order. *)
Definition handles_for (key : string) (entries : list (string * Obj)) : list Obj :=
  map snd (List.filter (fun p => bool_decide (p.1 = key)) entries).

(** ** Units of work that fail

    Each relation lists the ways one unit of work, a row or a sheet, can
    fail, and gives the world and the trace it leaves: what was done up to
    the failure, then the line that reports it. *)









End Vocabulary.

(** * Properties *)

Section Properties.
Context {World Act Obj : Type} `{EqDecision Act} (agb : Agb World Act Obj).

Local Abbreviation guarded := (@guarded World Act Obj _).
Local Abbreviation total := (@total World Act Obj _).
Local Abbreviation emits := (@emits World Act Obj _).
Local Abbreviation continues := (@continues World Act Obj _ _).

Implicit Types (w : World) (trace t : list (event Act Obj)).

(** ** The monad *)

Lemma bind_run {A B} (m : M World Act Obj A) (k : A -> M World Act Obj B)
    w w1 t1 a :
  m w = (w1, t1, Ok a) ->
  bind m k w = (out_world (k a w1), t1 ++ out_trace (k a w1), out_result (k a w1)).
Proof.
  intros Hm. unfold bind. rewrite Hm.
  destruct (k a w1) as [[w2 t2] r]. reflexivity.
Qed.


(** Run the first action of a [bind] with a known outcome. *)
Ltac run_bind tac := erewrite bind_run by tac; cbn beta iota.

Lemma out_eta {A} (o : World * list (event Act Obj) * result A) :
  o = (out_world o, out_trace o, out_result o).
Proof. destruct o as [[? ?] ?]. reflexivity. Qed.

(** ** The resolver *)

Lemma lookup_custom_hit what name db w w' a :
  notna name = true ->
  agb_findActivity agb name db w = (w', Ok a) ->
  lookup_custom agb what name db w
  = (w', [Call (FindActivity name db) None], Ok (Some a)).
Proof.
  intros Hn Hf. unfold lookup_custom, try_except, bind, invoke, ret.
  rewrite Hn, Hf. reflexivity.
Qed.

Lemma lookup_custom_miss what name db w w' t :
  no_match agb what name db w w' t ->
  lookup_custom agb what name db w = (w', t, Ok None).
Proof.
  intros [Hn | w1 e Hn Hf]; unfold lookup_custom.
  - unfold notna. rewrite Hn. reflexivity.
  - rewrite Hn. unfold try_except, bind, invoke, ret, print.
    rewrite Hf. reflexivity.
Qed.

Lemma lookup_base_run name location w w' r :
  agb_findTechAct agb name (base_location location) w = (w', r) ->
  lookup_base agb name location w
  = (w', base_trace name location r, Ok (base_value r)).
Proof.
  unfold lookup_base, base_trace, base_value, base_location.
  unfold try_except, bind, invoke, ret, print.
  destruct (notna location); intros ->; destruct r; reflexivity.
Qed.

(** C1. A modified-activity name that is present and resolves is what the
    resolver returns, after that one call and whatever the other names
    would resolve to.  When the modified name yields no match, a custom
    process name that is present and resolves is returned next; the trace
    ends with that call, so the base database has not been asked. *)
Theorem find_activity_prefers_modified_then_custom
    name location custom modified db w :
  (forall w1 a,
      notna modified = true ->
      agb_findActivity agb modified db w = (w1, Ok a) ->
      find_activity agb name location custom modified db w
      = (w1, [Call (FindActivity modified db) None], Ok a))
  /\
  (forall w1 t1 w2 a,
      no_match agb "activity" modified db w w1 t1 ->
      notna custom = true ->
      agb_findActivity agb custom db w1 = (w2, Ok a) ->
      find_activity agb name location custom modified db w
      = (w2, t1 ++ [Call (FindActivity custom db) None], Ok a)
      /\ forallb (fun ev => negb (is_base_lookup ev))
                 (t1 ++ [Call (FindActivity custom db) None]) = true).
Proof.
  split.
  - intros w1 a Hn Hf. unfold find_activity.
    run_bind ltac:(apply lookup_custom_hit; eassumption).
    reflexivity.
  - intros w1 t1 w2 a Hm Hn Hf. split.
    + unfold find_activity.
      run_bind ltac:(apply lookup_custom_miss; eassumption).
      run_bind ltac:(apply lookup_custom_hit; eassumption).
      reflexivity.
    + destruct Hm; reflexivity.
Qed.

(** C9. When neither name of the custom database yields a match, the
    base database is asked exactly once: with the name and the location
    when the location is present, with the name alone when it is missing.
    The resolver hands back what that lookup returns. *)
Theorem find_activity_base_lookup_location
    name location custom modified db w w1 t1 w2 t2 w3 r :
  no_match agb "activity" modified db w w1 t1 ->
  no_match agb "custom process" custom db w1 w2 t2 ->
  agb_findTechAct agb name
    (if notna location then Some location else None) w2 = (w3, r) ->
  find_activity agb name location custom modified db w
  = (w3,
     t1 ++ t2 ++
     Call (FindTechAct name (if notna location then Some location else None))
          (raised r)
     :: match r with
        | Ok _ => []
        | Raise e =>
            [Print ("Failed to find activity '" ++ py_str name
                    ++ "' in Ecoinvent for location '" ++ py_str location
                    ++ "': " ++ exn_msg e)]
        end,
     Ok (match r with Ok a => a | Raise _ => None end)).
Proof.
  intros Hm Hc Hb. unfold find_activity.
  run_bind ltac:(apply lookup_custom_miss; eassumption).
  run_bind ltac:(apply lookup_custom_miss; eassumption).
  erewrite lookup_base_run by exact Hb.
  reflexivity.
Qed.

(** C8. When the lookup of the modified name, the lookup of the custom
    process name and the lookup in the base database all raise, the
    resolver returns [None]; the trace holds the three calls, each
    followed by the line that reports it, and the outcome is a value, not
    an exception. *)
Theorem find_activity_all_lookups_fail
    name location custom modified db w w1 e1 w2 e2 w3 e3 :
  notna modified = true ->
  notna custom = true ->
  agb_findActivity agb modified db w = (w1, Raise e1) ->
  agb_findActivity agb custom db w1 = (w2, Raise e2) ->
  agb_findTechAct agb name (base_location location) w2 = (w3, Raise e3) ->
  find_activity agb name location custom modified db w
  = (w3,
     [Call (FindActivity modified db) (Some e1);
      Print ("Failed to find activity '" ++ py_str modified
             ++ "' in custom database '" ++ db ++ "': " ++ exn_msg e1);
      Call (FindActivity custom db) (Some e2);
      Print ("Failed to find custom process '" ++ py_str custom
             ++ "' in custom database '" ++ db ++ "': " ++ exn_msg e2);
      Call (FindTechAct name (base_location location)) (Some e3);
      Print ("Failed to find activity '" ++ py_str name
             ++ "' in Ecoinvent for location '" ++ py_str location
             ++ "': " ++ exn_msg e3)],
     Ok None).
Proof.
  intros Hm Hc H1 H2 H3. unfold find_activity.
  run_bind ltac:(apply lookup_custom_miss; apply no_match_failed; eassumption).
  run_bind ltac:(apply lookup_custom_miss; apply no_match_failed; eassumption).
  erewrite lookup_base_run by exact H3.
  reflexivity.
Qed.

(** ** Traces in which every failure is reported *)


Lemma failures_logged_app_print_len n t1 line t2 :
  length t1 < n ->
  pending t1 = true -> failures_logged t2 = true ->
  failures_logged (t1 ++ Print line :: t2) = true.
Proof.
  unfold pending. revert t1.
  induction n as [|n IH]; intros t1 Hlen H1 H2; [lia|].
  destruct t1 as [|[c [e|]|l|k] rest]; cbn in *; try (apply IH; [lia|done..]); [done|].
  destruct rest as [|[c' err'|l'|k'] rest']; cbn in *; try done.
  apply IH; [lia|done..].
Qed.

Lemma failures_logged_app_print t1 line t2 :
  pending t1 = true -> failures_logged t2 = true ->
  failures_logged (t1 ++ Print line :: t2) = true.
Proof. apply (failures_logged_app_print_len (S (length t1))). lia. Qed.

Lemma failures_logged_app_len n t1 t2 :
  length t1 < n ->
  failures_logged t1 = true -> failures_logged t2 = true ->
  failures_logged (t1 ++ t2) = true.
Proof.
  revert t1. induction n as [|n IH]; intros t1 Hlen H1 H2; [lia|].
  destruct t1 as [|[c [e|]|l|k] rest]; cbn in *; try (apply IH; [lia|done..]); [done|].
  destruct rest as [|[c' err'|l'|k'] rest']; cbn in *; try done.
  apply IH; [lia|done..].
Qed.

Lemma failures_logged_app t1 t2 :
  failures_logged t1 = true -> failures_logged t2 = true ->
  failures_logged (t1 ++ t2) = true.
Proof. apply (failures_logged_app_len (S (length t1))). lia. Qed.

Lemma logged_pending t : failures_logged t = true -> pending t = true.
Proof. intros Ht. apply failures_logged_app; done. Qed.

Lemma pending_app t1 t2 :
  failures_logged t1 = true -> pending t2 = true -> pending (t1 ++ t2) = true.
Proof.
  intros H1 H2. unfold pending. rewrite <- app_assoc.
  apply failures_logged_app; done.
Qed.



Lemma guarded_ret {A} (a : A) : guarded (ret a).
Proof. intros w. reflexivity. Qed.

Lemma guarded_raise {A} e : guarded (@raise World Act Obj A e).
Proof. intros w. reflexivity. Qed.

Lemma guarded_print line : guarded (@print World Act Obj line).
Proof. intros w. reflexivity. Qed.

Lemma guarded_set_item key : guarded (@set_item World Act Obj key).
Proof. intros w. reflexivity. Qed.

Lemma guarded_invoke {A} c (f : World -> World * result A) :
  guarded (invoke c f).
Proof.
  intros w. unfold invoke. destruct (f w) as [w' [a|e]]; reflexivity.
Qed.

Lemma guarded_bind {A B} (m : M World Act Obj A) (k : A -> M World Act Obj B) :
  guarded m -> (forall a, guarded (k a)) -> guarded (bind m k).
Proof.
  intros Hm Hk w. specialize (Hm w). unfold bind.
  destruct (m w) as [[w1 t1] [a|e]]; cbn in *; [|done].
  specialize (Hk a w1).
  destruct (k a w1) as [[w2 t2] [b|e]]; cbn in *.
  - apply failures_logged_app; done.
  - apply pending_app; done.
Qed.

Lemma guarded_try {A} (m : M World Act Obj A) (report : exn -> string)
    (k : exn -> M World Act Obj A) :
  guarded m -> (forall e, guarded (k e)) ->
  guarded (try_except m (fun e => print (report e) ;;; k e)).
Proof.
  intros Hm Hk w. specialize (Hm w). unfold try_except.
  destruct (m w) as [[w1 t1] [a|e]]; cbn in *; [done|].
  specialize (Hk e w1). unfold bind, print.
  destruct (k e w1) as [[w2 t2] [b|e']]; cbn in *.
  - apply failures_logged_app_print; done.
  - unfold pending. rewrite <- app_assoc. cbn.
    apply failures_logged_app_print; done.
Qed.

Lemma guarded_try_print (m : M World Act Obj unit) (report : exn -> string) :
  guarded m -> guarded (try_except m (fun e => print (report e))).
Proof.
  intros Hm w. specialize (Hm w). unfold try_except.
  destruct (m w) as [[w1 t1] [a|e]]; cbn in *; [done|].
  apply failures_logged_app_print; done.
Qed.

Lemma total_ret {A} (a : A) : total (ret a).
Proof. intros w. eexists. reflexivity. Qed.

Lemma total_print line : total (@print World Act Obj line).
Proof. intros w. eexists. reflexivity. Qed.

Lemma total_bind {A B} (m : M World Act Obj A) (k : A -> M World Act Obj B) :
  total m -> (forall a, total (k a)) -> total (bind m k).
Proof.
  intros Hm Hk w. destruct (Hm w) as [a Ha]. unfold bind.
  destruct (m w) as [[w1 t1] r]; cbn in Ha; subst r.
  destruct (Hk a w1) as [b Hb].
  destruct (k a w1) as [[w2 t2] r]; cbn in *. eauto.
Qed.

Lemma total_try {A} (m : M World Act Obj A) (h : exn -> M World Act Obj A) :
  (forall e, total (h e)) -> total (try_except m h).
Proof.
  intros Hh w. unfold try_except.
  destruct (m w) as [[w1 t1] [a|e]]; cbn; [eauto|].
  destruct (Hh e w1) as [b Hb].
  destruct (h e w1) as [[w2 t2] r]; cbn in *. eauto.
Qed.


(** ** No failure escapes a [try], and each is reported *)

Ltac guard_step :=
  match goal with
  | |- guarded (ret _) => apply guarded_ret
  | |- guarded (raise _) => apply guarded_raise
  | |- guarded (print _) => apply guarded_print
  | |- guarded (set_item _) => apply guarded_set_item
  | |- guarded (invoke _ _) => apply guarded_invoke
  | |- guarded (bind _ _) => apply guarded_bind; [|intros ?]
  | |- guarded (try_except _ (fun e => bind (print _) _)) =>
      apply guarded_try; [|intros ?]
  | |- guarded (try_except _ (fun e => print _)) => apply guarded_try_print
  | |- guarded (if ?b then _ else _) => destruct b
  | |- guarded (match ?x with _ => _ end) => destruct x
  | |- total (ret _) => apply total_ret
  | |- total (print _) => apply total_print
  | |- total (bind _ _) => apply total_bind; [|intros ?]
  | |- total (try_except _ _) => apply total_try; intros ?
  | |- total (if ?b then _ else _) => destruct b
  | |- total (match ?x with _ => _ end) => destruct x
  end.



Lemma total_find_activity name location custom modified db :
  total (find_activity agb name location custom modified db).
Proof.
  unfold find_activity, lookup_custom, lookup_base. repeat guard_step.
Qed.



Lemma total_register_param name param_type row registry :
  total (register_param agb name param_type row registry).
Proof. unfold register_param. repeat guard_step. Qed.


Lemma normalize_type_is_str rows : Forall type_is_str (map (normalize_type agb) rows).
Proof.
  induction rows as [|row rows IH]; constructor; [|exact IH].
  eexists. reflexivity.
Qed.


Lemma total_params_loop sheet_name index rows registry :
  Forall type_is_str rows ->
  total (params_loop agb sheet_name index rows registry).
Proof.
  intros Hrows. revert index registry.
  induction Hrows as [|row rest [s Hs] _ IH]; intros index registry;
    cbn [params_loop]; unfold strip_lower.
  - apply total_ret.
  - rewrite Hs. pose proof total_register_param. repeat guard_step; auto.
Qed.


Lemma total_custom_row sheet_name db registry index row accumulated :
  total (custom_row agb sheet_name db registry index row accumulated).
Proof.
  unfold custom_row. pose proof total_find_activity. repeat guard_step; auto.
Qed.


Lemma total_custom_rows sheet_name db registry index rows accumulated :
  total (custom_rows agb sheet_name db registry index rows accumulated).
Proof.
  revert index accumulated.
  induction rows as [|row rest IH]; intros index accumulated; cbn [custom_rows].
  - apply total_ret.
  - pose proof total_custom_row. repeat guard_step; auto.
Qed.





Lemma total_modified_sheet sheet_name meta dfs db registry :
  total (modified_sheet agb sheet_name meta dfs db registry).
Proof. unfold modified_sheet. repeat guard_step. Qed.





Lemma total_foreground_row selected db registry row :
  total (foreground_row agb selected db registry row).
Proof.
  unfold foreground_row. pose proof total_find_activity.
  repeat guard_step; auto.
Qed.



(** ** Monad laws, pointwise *)

Lemma bind_ret_l {A B} (a : A) (k : A -> M World Act Obj B) w :
  bind (ret a) k w = k a w.
Proof. unfold bind, ret. destruct (k a w) as [[w2 t2] r]. reflexivity. Qed.

Lemma bind_assoc {A B C} (m : M World Act Obj A) (k : A -> M World Act Obj B)
    (k' : B -> M World Act Obj C) w :
  bind (bind m k) k' w = bind m (fun a => bind (k a) k') w.
Proof.
  unfold bind. destruct (m w) as [[w1 t1] [a|e]]; [|reflexivity].
  destruct (k a w1) as [[w2 t2] [b|e]]; [|reflexivity].
  destruct (k' b w2) as [[w3 t3] r]. rewrite app_assoc. reflexivity.
Qed.

Lemma bind_ext {A B} (m : M World Act Obj A) (k k' : A -> M World Act Obj B) w :
  (forall a w', k a w' = k' a w') -> bind m k w = bind m k' w.
Proof.
  intros Hk. unfold bind. destruct (m w) as [[w1 t1] [a|e]]; [|reflexivity].
  rewrite Hk. reflexivity.
Qed.

Lemma bind_ext_l {A B} (m m' : M World Act Obj A) (k : A -> M World Act Obj B) w :
  (forall w', m w' = m' w') -> bind m k w = bind m' k w.
Proof. intros Hm. unfold bind. rewrite Hm. reflexivity. Qed.

(** When the first action returns, [bind] appends the run of the rest. *)
Lemma bind_total {A B} (m : M World Act Obj A) (k : A -> M World Act Obj B) w :
  total m ->
  exists a,
    out_result (m w) = Ok a
    /\ bind m k w
       = (out_world (k a (out_world (m w))),
          out_trace (m w) ++ out_trace (k a (out_world (m w))),
          out_result (k a (out_world (m w)))).
Proof.
  intros Hm. destruct (Hm w) as [a Ha]. exists a. split; [exact Ha|].
  apply bind_run. rewrite (out_eta (m w)), Ha. reflexivity.
Qed.

(** ** What a run does not do *)


Lemma emits_ret {A} P (a : A) : emits P (ret a).
Proof. intros w. reflexivity. Qed.

Lemma emits_raise {A} P e : emits P (@raise World Act Obj A e).
Proof. intros w. reflexivity. Qed.

Lemma emits_print P line : P (Print line) = true -> emits P (print line).
Proof. intros HP w. cbn. rewrite HP. reflexivity. Qed.

Lemma emits_invoke {A} P c (f : World -> World * result A) :
  (forall err, P (Call c err) = true) -> emits P (invoke c f).
Proof.
  intros HP w. unfold invoke. destruct (f w) as [w' r]. cbn.
  rewrite HP. reflexivity.
Qed.

Lemma emits_bind {A B} P (m : M World Act Obj A) (k : A -> M World Act Obj B) :
  emits P m -> (forall a, emits P (k a)) -> emits P (bind m k).
Proof.
  intros Hm Hk w. specialize (Hm w). unfold bind.
  destruct (m w) as [[w1 t1] [a|e]]; cbn in *; [|done].
  specialize (Hk a w1). destruct (k a w1) as [[w2 t2] r]; cbn in *.
  rewrite forallb_app, Hm, Hk. reflexivity.
Qed.

Lemma emits_try {A} P (m : M World Act Obj A) (h : exn -> M World Act Obj A) :
  emits P m -> (forall e, emits P (h e)) -> emits P (try_except m h).
Proof.
  intros Hm Hh w. specialize (Hm w). unfold try_except.
  destruct (m w) as [[w1 t1] [a|e]]; cbn in *; [done|].
  specialize (Hh e w1). destruct (h e w1) as [[w2 t2] r]; cbn in *.
  rewrite forallb_app, Hm, Hh. reflexivity.
Qed.

Ltac emit_step :=
  match goal with
  | |- emits _ (ret _) => apply emits_ret
  | |- emits _ (raise _) => apply emits_raise
  | |- emits _ (print _) => apply emits_print; reflexivity
  | |- emits _ (invoke _ _) => apply emits_invoke; intros ?; reflexivity
  | |- emits _ (bind _ _) => apply emits_bind; [|intros ?]
  | |- emits _ (try_except _ _) => apply emits_try; [|intros ?]
  | |- emits _ (if ?b then _ else _) => destruct b
  | |- emits _ (match ?x with _ => _ end) => destruct x
  end.


Lemma assigned_keys_app t1 t2 :
  assigned_keys (t1 ++ t2) = assigned_keys t1 ++ assigned_keys t2.
Proof.
  induction t1 as [|[c err|line|key] t1 IH]; cbn; rewrite ?IH; reflexivity.
Qed.

Lemma assigned_keys_none t :
  forallb not_set_item t = true -> assigned_keys t = [].
Proof.
  induction t as [|[c err|line|key] t IH]; cbn; intros Ht; auto; done.
Qed.



Lemma filter_new_activity_none t :
  forallb not_new_activity t = true -> List.filter is_new_activity t = [].
Proof.
  induction t as [|ev t IH]; cbn; [reflexivity|].
  unfold not_new_activity at 1. destruct (is_new_activity ev); cbn; [done|auto].
Qed.

Lemma quiet_new_param name param_type row :
  emits not_set_item (new_param agb name param_type row).
Proof. unfold new_param, eval_if_str. repeat emit_step. Qed.

Lemma quiet_find_activity name location custom modified db :
  emits not_new_activity (find_activity agb name location custom modified db).
Proof. unfold find_activity, lookup_custom, lookup_base. repeat emit_step. Qed.

Lemma quiet_custom_rows sheet_name db registry index rows accumulated :
  emits not_new_activity
        (custom_rows agb sheet_name db registry index rows accumulated).
Proof.
  revert index accumulated.
  induction rows as [|row rest IH]; intros index accumulated; cbn [custom_rows].
  - apply emits_ret.
  - unfold custom_row, eval_parameter. pose proof quiet_find_activity.
    repeat emit_step; auto.
Qed.


(** ** The parameter builder, row by row *)

Lemma params_loop_step sheet index row rest registry w s :
  p_type row = CStr s ->
  isna (p_ei_activity_name row) = false ->
  params_loop agb sheet index (row :: rest) registry w
  = bind (register_param agb (param_name sheet (p_parameter_number row))
                         (py_lower agb (py_strip agb s)) row registry)
         (fun registry' => params_loop agb sheet (S index) rest registry') w.
Proof.
  intros Hs Hn. cbn [params_loop]. unfold strip_lower. rewrite Hs.
  cbn beta iota. rewrite bind_ret_l, Hn. reflexivity.
Qed.

Lemma params_loop_stop sheet index row rest registry w :
  type_is_str row ->
  isna (p_ei_activity_name row) = true ->
  params_loop agb sheet index (row :: rest) registry w
  = (w, [Print ("Skipping row " ++ pretty index
                ++ " as 'EI activity name' is NaN.")], Ok registry).
Proof.
  intros [s Hs] Hn. cbn [params_loop]. unfold strip_lower. rewrite Hs.
  cbn beta iota. rewrite bind_ret_l, Hn. reflexivity.
Qed.

Lemma params_loop_app sheet index pre post registry w :
  Forall type_is_str pre ->
  Forall (fun r => isna (p_ei_activity_name r) = false) pre ->
  params_loop agb sheet index (pre ++ post) registry w
  = bind (params_loop agb sheet index pre registry)
         (fun registry' =>
            params_loop agb sheet (index + length pre) post registry') w.
Proof.
  intros Hstr Hna. revert index registry w.
  induction pre as [|row pre IH]; intros index registry w.
  - cbn [app length params_loop]. rewrite bind_ret_l, Nat.add_0_r. reflexivity.
  - inversion Hstr as [|? ? [s Hs] Hstr']; subst.
    inversion Hna as [|? ? Hn Hna']; subst.
    cbn [app]. rewrite (params_loop_step _ _ _ _ _ _ s) by assumption.
    etransitivity;
      [|symmetry; apply bind_ext_l; intros w';
        apply (params_loop_step _ _ _ _ _ _ s); assumption].
    rewrite bind_assoc. apply bind_ext. intros registry' w'.
    rewrite IH by assumption. cbn [length].
    replace (S index + length pre) with (index + S (length pre)) by lia.
    reflexivity.
Qed.

Lemma new_param_unsupported name param_type row w :
  param_type ∉ ["float"; "bool"; "enum"] ->
  new_param agb name param_type row w
  = (w, [], Raise (Exn "ValueError"
                       ("Unsupported parameter type: " ++ param_type))).
Proof.
  intros Hty. unfold new_param.
  destruct (String.eqb_spec param_type "float") as [->|_]; [set_solver|].
  destruct (String.eqb_spec param_type "bool") as [->|_]; [set_solver|].
  destruct (String.eqb_spec param_type "enum") as [->|_]; [set_solver|].
  reflexivity.
Qed.

Lemma register_param_unsupported name param_type row registry w :
  param_type ∉ ["float"; "bool"; "enum"] ->
  register_param agb name param_type row registry w
  = (w, [Print ("Error creating parameter '" ++ name
                ++ "': Unsupported parameter type: " ++ param_type)],
     Ok registry).
Proof.
  intros Hty. unfold register_param, try_except, bind.
  rewrite new_param_unsupported by assumption. reflexivity.
Qed.

(** A row either assigns its key once, or leaves the registry alone. *)
Lemma register_param_run name param_type row (registry : gmap string Obj) w :
  let o := register_param agb name param_type row registry w in
  (exists param, out_result o = Ok (<[name := param]> registry)
                 /\ assigned_keys (out_trace o) = [name])
  \/ (out_result o = Ok registry /\ assigned_keys (out_trace o) = []).
Proof.
  pose proof (quiet_new_param name param_type row w) as Hq.
  unfold register_param, try_except, bind, set_item, print, ret.
  destruct (new_param agb name param_type row w) as [[w1 t1] [param|e]];
    cbn in *; [left; exists param | right]; split; try reflexivity;
    rewrite assigned_keys_app, (assigned_keys_none t1) by assumption;
    reflexivity.
Qed.

Lemma before_terminator_normalize rows :
  before_terminator p_ei_activity_name (map (normalize_type agb) rows)
  = map (normalize_type agb) (before_terminator p_ei_activity_name rows).
Proof.
  induction rows as [|row rows IH]; cbn; [reflexivity|].
  destruct (isna (p_ei_activity_name row)); cbn; [reflexivity|].
  rewrite IH. reflexivity.
Qed.

(** The keys a run assigns are keys of rows above the terminator, in row
    order; the registry changes at those keys only. *)
Lemma params_loop_keys sheet index rows (registry : gmap string Obj) w :
  Forall type_is_str rows ->
  let o := params_loop agb sheet index rows registry w in
  exists registry',
    out_result o = Ok registry'
    /\ assigned_keys (out_trace o)
       `sublist_of` map (fun r => param_name sheet (p_parameter_number r))
                        (before_terminator p_ei_activity_name rows)
    /\ forall key, key ∉ assigned_keys (out_trace o) ->
                   registry' !! key = registry !! key.
Proof.
  intros Hstr. revert index registry w.
  induction Hstr as [|row rest Hrow Hstr IH]; intros index registry w.
  - exists registry. cbn. split; [reflexivity|]. split; [constructor|done].
  - cbn [before_terminator]. destruct (isna (p_ei_activity_name row)) eqn:Hn.
    + rewrite params_loop_stop by assumption. exists registry. cbn.
      split; [reflexivity|]. split; [constructor|done].
    + destruct Hrow as [s Hs]. cbv zeta.
      rewrite (params_loop_step _ _ _ _ _ _ s) by assumption.
      set (name := param_name sheet (p_parameter_number row)).
      pose proof (register_param_run name (py_lower agb (py_strip agb s)) row registry w) as Hrun.
      cbv zeta in Hrun. unfold bind.
      destruct (register_param agb name (py_lower agb (py_strip agb s)) row registry w)
        as [[w1 t1] r1]; cbn in Hrun.
      destruct Hrun as [(param & -> & Hkeys) | (-> & Hkeys)].
      * specialize (IH (S index) (<[name := param]> registry) w1).
        cbv zeta in IH.
        destruct (params_loop agb sheet (S index) rest _ w1) as [[w2 t2] r2].
        cbn in IH. destruct IH as (registry' & -> & Hsub & Hframe).
        exists registry'. cbn. rewrite assigned_keys_app, Hkeys. cbn.
        split; [reflexivity|]. split; [by apply sublist_skip|].
        intros key Hkey. rewrite Hframe by set_solver.
        apply lookup_insert_ne. set_solver.
      * specialize (IH (S index) registry w1). cbv zeta in IH.
        destruct (params_loop agb sheet (S index) rest _ w1) as [[w2 t2] r2].
        cbn in IH. destruct IH as (registry' & -> & Hsub & Hframe).
        exists registry'. cbn. rewrite assigned_keys_app, Hkeys. cbn.
        split; [reflexivity|]. split; [by apply sublist_cons|]. exact Hframe.
Qed.

Lemma normalize_type_names rows :
  Forall (fun r => isna (p_ei_activity_name r) = false) rows ->
  Forall (fun r => isna (p_ei_activity_name r) = false) (map (normalize_type agb) rows).
Proof. induction 1; constructor; assumption. Qed.

Lemma map_param_name_normalize sheet rows :
  map (fun r => param_name sheet (p_parameter_number r)) (map (normalize_type agb) rows)
  = map (fun r => param_name sheet (p_parameter_number r)) rows.
Proof. rewrite map_map. reflexivity. Qed.

(** X12. The parameter builder stops at the first row without a process
    name: the rows below it are not looked at, and the world and the
    registry are those the rows above it had produced. *)
Lemma process_parameters_terminator sheet pre stop post registry w :
  Forall (fun r => isna (p_ei_activity_name r) = false) pre ->
  isna (p_ei_activity_name stop) = true ->
  process_parameters agb (pre ++ stop :: post) registry sheet w
  = (out_world (process_parameters agb pre registry sheet w),
     out_trace (process_parameters agb pre registry sheet w)
     ++ [Print ("Skipping row " ++ pretty (length pre)
                ++ " as 'EI activity name' is NaN.")],
     out_result (process_parameters agb pre registry sheet w)).
Proof.
  intros Hpre Hstop. unfold process_parameters.
  rewrite map_app. cbn [map].
  rewrite params_loop_app
    by auto using normalize_type_is_str, normalize_type_names.
  destruct (bind_total
              (params_loop agb sheet 0 (map (normalize_type agb) pre) registry)
              (fun registry' =>
                 params_loop agb sheet (0 + length (map (normalize_type agb) pre))
                             (normalize_type agb stop :: map (normalize_type agb) post)
                             registry') w) as (registry' & Hres & ->).
  { apply total_params_loop, normalize_type_is_str. }
  rewrite params_loop_stop; [|eexists; reflexivity|exact Hstop].
  rewrite length_map, Hres. reflexivity.
Qed.

(** The parameter a row asks for does not depend on its "Type" cell
    once the tag is known: normalising the column leaves it as it is. *)
Lemma new_param_normalize name param_type row w :
  new_param agb name param_type (normalize_type agb row) w
  = new_param agb name param_type row w.
Proof. reflexivity. Qed.

Lemma register_param_outcome name param_type row (registry : gmap string Obj) w :
  register_param agb name param_type row registry w
  = let o := new_param agb name param_type row w in
    (out_world o,
     out_trace o
     ++ match out_result o with
        | Ok _ => [SetItem name;
                   Print ("Parameter created and registered: " ++ name)]
        | Raise e =>
            [Print ("Error creating parameter '" ++ name ++ "': " ++ exn_msg e)]
        end,
     Ok (match out_result o with
         | Ok param => <[name := param]> registry
         | Raise _ => registry
         end)).
Proof.
  unfold register_param, try_except, bind, set_item, print, ret.
  destruct (new_param agb name param_type row w) as [[w1 t1] [param|e]];
    reflexivity.
Qed.

(** One row of the loop, in terms of the raw row of the sheet. *)
Lemma params_loop_row sheet index row rest (registry : gmap string Obj) w :
  isna (p_ei_activity_name row) = false ->
  params_loop agb sheet index (normalize_type agb row :: rest) registry w
  = bind (register_param agb (param_name sheet (p_parameter_number row))
                         (py_type_tag agb (p_type row)) row registry)
         (fun registry' => params_loop agb sheet (S index) rest registry') w.
Proof.
  intros Hn.
  rewrite (params_loop_step _ _ _ _ _ _
             (py_lower agb (py_strip agb (py_str (p_type row)))))
    by (reflexivity || exact Hn).
  apply bind_ext_l. intros w'.
  rewrite !register_param_outcome. reflexivity.
Qed.

Lemma handles_for_cons key name (param : Obj) entries :
  handles_for key ((name, param) :: entries)
  = if bool_decide (name = key) then param :: handles_for key entries
    else handles_for key entries.
Proof.
  unfold handles_for. cbn [List.filter fst].
  destruct (bool_decide (name = key)); reflexivity.
Qed.

(** The loop assigns the keys of [registered] in order, and leaves under
    each key the handle registered last. *)
Lemma params_loop_registered sheet index rows (registry : gmap string Obj) w :
  assigned_keys
    (out_trace (params_loop agb sheet index (map (normalize_type agb) rows)
                            registry w))
  = map fst (registered agb sheet rows w)
  /\ exists registry',
      out_result (params_loop agb sheet index (map (normalize_type agb) rows)
                              registry w) = Ok registry'
      /\ forall key,
          registry' !! key
          = match last (handles_for key (registered agb sheet rows w)) with
            | Some param => Some param
            | None => registry !! key
            end.
Proof.
  revert index registry w.
  induction rows as [|row rest IH]; intros index registry w.
  - split; [reflexivity|]. exists registry. split; reflexivity.
  - cbn [map registered].
    destruct (isna (p_ei_activity_name row)) eqn:Hn.
    + rewrite params_loop_stop; [|eexists; reflexivity|exact Hn].
      split; [reflexivity|]. exists registry. split; reflexivity.
    + rewrite params_loop_row by exact Hn.
      unfold bind. rewrite register_param_outcome. cbv zeta.
      unfold param_outcome.
      set (name := param_name sheet (p_parameter_number row)).
      pose proof (quiet_new_param name (py_type_tag agb (p_type row)) row w) as Hq.
      destruct (new_param agb name (py_type_tag agb (p_type row)) row w)
        as [[w1 t1] [param|e]]; cbn [out_world out_trace out_result fst snd] in *.
      * destruct (IH (S index) (<[name := param]> registry) w1)
          as (Hkeys & registry' & Hres & Hget).
        destruct (params_loop agb sheet (S index) _ _ w1) as [[w2 t2] r2].
        cbn [out_trace out_result fst snd] in *. subst r2. split.
        -- rewrite !assigned_keys_app, (assigned_keys_none t1) by exact Hq.
           cbn. rewrite Hkeys. reflexivity.
        -- exists registry'. split; [reflexivity|]. intros key.
           rewrite Hget, handles_for_cons.
           destruct (decide (name = key)) as [->|Hne].
           ++ rewrite bool_decide_eq_true_2 by reflexivity.
              rewrite lookup_insert_eq.
              destruct (handles_for key (registered agb sheet rest w1))
                as [|x l]; [reflexivity|].
              rewrite (last_cons param (x :: l)).
              destruct (last (x :: l)); reflexivity.
           ++ rewrite bool_decide_eq_false_2 by exact Hne.
              rewrite lookup_insert_ne by exact Hne. reflexivity.
      * destruct (IH (S index) registry w1) as (Hkeys & registry' & Hres & Hget).
        destruct (params_loop agb sheet (S index) _ _ w1) as [[w2 t2] r2].
        cbn [out_trace out_result fst snd] in *. subst r2. split.
        -- rewrite !assigned_keys_app, (assigned_keys_none t1) by exact Hq.
           cbn. exact Hkeys.
        -- exists registry'. split; [reflexivity|]. exact Hget.
Qed.

Lemma registered_sublist sheet rows w :
  map fst (registered agb sheet rows w)
  `sublist_of` map (fun r => param_name sheet (p_parameter_number r))
                   (before_terminator p_ei_activity_name rows).
Proof.
  revert w. induction rows as [|row rest IH]; intros w; [constructor|].
  cbn [registered before_terminator].
  destruct (isna (p_ei_activity_name row)); [constructor|].
  unfold param_outcome.
  destruct (out_result (new_param agb _ _ row w)); cbn [map fst].
  - apply sublist_skip, IH.
  - apply sublist_cons, IH.
Qed.

Lemma handles_for_absent key (entries : list (string * Obj)) :
  key ∉ map fst entries -> handles_for key entries = [].
Proof.
  induction entries as [|[name param] entries IH]; [reflexivity|].
  cbn [map fst]. intros Hout. rewrite handles_for_cons.
  rewrite bool_decide_eq_false_2 by (intros ->; apply Hout; left).
  apply IH. intros Hin. apply Hout. right. exact Hin.
Qed.

(** C4, as the code has it.  The key of a row is the sheet name, an
    underscore and the text of its "parameter number" cell; the row index
    is no part of it.  One call of the parameter builder assigns the keys
    of the rows above the terminator whose parameter was built, in row
    order, and nothing else.  Afterwards each of these keys holds the handle
    of the last row that registered under it, an earlier handle under the
    same key being overwritten, and every other key holds what it held
    before.  When the rows above the terminator carry pairwise distinct
    parameter numbers, no key is assigned twice. *)
Theorem registry_keys_assigned_once sheet rows (registry : gmap string Obj) w :
  assigned_keys (out_trace (process_parameters agb rows registry sheet w))
  = map fst (registered agb sheet rows w)
  /\ map fst (registered agb sheet rows w)
     `sublist_of` map (fun r => param_name sheet (p_parameter_number r))
                      (before_terminator p_ei_activity_name rows)
  /\ (exists registry',
         out_result (process_parameters agb rows registry sheet w) = Ok registry'
         /\ (forall key,
                registry' !! key
                = match last (handles_for key (registered agb sheet rows w)) with
                  | Some param => Some param
                  | None => registry !! key
                  end)
         /\ (forall key,
                key ∉ assigned_keys
                        (out_trace (process_parameters agb rows registry sheet w)) ->
                registry' !! key = registry !! key))
  /\ (NoDup (map (fun r => py_str (p_parameter_number r))
                 (before_terminator p_ei_activity_name rows)) ->
      NoDup (assigned_keys
               (out_trace (process_parameters agb rows registry sheet w)))).
Proof.
  unfold process_parameters.
  destruct (params_loop_registered sheet 0 rows registry w)
    as (Hkeys & registry' & Hres & Hget).
  pose proof (registered_sublist sheet rows w) as Hsub.
  split; [exact Hkeys|]. split; [exact Hsub|]. split.
  - exists registry'. split; [exact Hres|]. split; [exact Hget|].
    intros key Hkey. rewrite Hget, handles_for_absent; [reflexivity|].
    rewrite <- Hkeys. exact Hkey.
  - intros Hnodup. rewrite Hkeys.
    eapply sublist_NoDup; [|exact Hsub].
    change (fun r => param_name sheet (p_parameter_number r))
      with (fun r => (String.app sheet ∘ String.app "_")
                       ((fun r => py_str (p_parameter_number r)) r)).
    rewrite <- (map_map (fun r => py_str (p_parameter_number r))
                        (String.app sheet ∘ String.app "_")).
    apply (NoDup_fmap_2 (String.app sheet ∘ String.app "_")). exact Hnodup.
Qed.

(** C7, as the code has it.  A row above the terminator whose type tag is
    none of float, bool, enum raises a [ValueError] that is caught: the run
    is the run of the rows above it, then the line reporting the error,
    then the run of the rows below it from the same world and registry, so
    the row assigns nothing and the rows below it are processed as usual.
    Its name is missing from the final registry when it was missing at the
    start and no other row above the terminator carries it. *)
Theorem unsupported_type_row_is_skipped sheet pre row post
    (registry : gmap string Obj) w :
  Forall (fun r => isna (p_ei_activity_name r) = false) pre ->
  isna (p_ei_activity_name row) = false ->
  py_type_tag agb (p_type row) ∉ ["float"; "bool"; "enum"] ->
  exists registry1,
    out_result (process_parameters agb pre registry sheet w) = Ok registry1
    /\ process_parameters agb (pre ++ row :: post) registry sheet w
       = (out_world
            (params_loop agb sheet (S (length pre)) (map (normalize_type agb) post)
               registry1 (out_world (process_parameters agb pre registry sheet w))),
          out_trace (process_parameters agb pre registry sheet w)
          ++ Print ("Error creating parameter '"
                    ++ param_name sheet (p_parameter_number row)
                    ++ "': Unsupported parameter type: "
                    ++ py_type_tag agb (p_type row))
          :: out_trace
               (params_loop agb sheet (S (length pre)) (map (normalize_type agb) post)
                  registry1
                  (out_world (process_parameters agb pre registry sheet w))),
          out_result
            (params_loop agb sheet (S (length pre)) (map (normalize_type agb) post)
               registry1 (out_world (process_parameters agb pre registry sheet w))))
    /\ exists registry2,
        out_result (process_parameters agb (pre ++ row :: post) registry sheet w)
        = Ok registry2
        /\ (registry !! param_name sheet (p_parameter_number row) = None ->
            param_name sheet (p_parameter_number row)
              ∉ map (fun r => param_name sheet (p_parameter_number r))
                    (pre ++ before_terminator p_ei_activity_name post) ->
            registry2 !! param_name sheet (p_parameter_number row) = None).
Proof.
  intros Hpre Hrow Hty. unfold process_parameters.
  set (name := param_name sheet (p_parameter_number row)).
  rewrite map_app. cbn [map].
  destruct (params_loop_keys sheet 0 (map (normalize_type agb) pre) registry w
                             (normalize_type_is_str pre))
    as (registry1 & Hres1 & Hsub1 & Hframe1).
  exists registry1. split; [exact Hres1|].
  assert (Hrun :
    params_loop agb sheet 0
      (map (normalize_type agb) pre ++ normalize_type agb row :: map (normalize_type agb) post)
      registry w
    = (out_world
         (params_loop agb sheet (S (length pre)) (map (normalize_type agb) post)
            registry1
            (out_world (params_loop agb sheet 0 (map (normalize_type agb) pre) registry w))),
       out_trace (params_loop agb sheet 0 (map (normalize_type agb) pre) registry w)
       ++ Print ("Error creating parameter '" ++ name
                 ++ "': Unsupported parameter type: " ++ py_type_tag agb (p_type row))
       :: out_trace
            (params_loop agb sheet (S (length pre)) (map (normalize_type agb) post)
               registry1
               (out_world (params_loop agb sheet 0 (map (normalize_type agb) pre) registry w))),
       out_result
         (params_loop agb sheet (S (length pre)) (map (normalize_type agb) post)
            registry1
            (out_world (params_loop agb sheet 0 (map (normalize_type agb) pre) registry w))))).
  { rewrite params_loop_app
      by auto using normalize_type_is_str, normalize_type_names.
    erewrite bind_run
      by (rewrite (out_eta (params_loop agb sheet 0 _ registry w)), Hres1;
          reflexivity).
    rewrite (params_loop_step _ _ _ _ _ _ (py_lower agb (py_strip agb (py_str (p_type row)))))
      by (reflexivity || exact Hrow).
    unfold bind at 1 2 3. rewrite register_param_unsupported by exact Hty.
    rewrite length_map. cbn [plus].
    destruct (params_loop agb sheet (S (length pre)) (map (normalize_type agb) post)
                          registry1 _) as [[w2 t2] r2].
    reflexivity. }
  split; [exact Hrun|].
  rewrite Hrun. cbn [out_result snd].
  destruct (params_loop_keys sheet (S (length pre)) (map (normalize_type agb) post)
              registry1
              (out_world (params_loop agb sheet 0 (map (normalize_type agb) pre) registry w))
              (normalize_type_is_str post))
    as (registry2 & Hres2 & Hsub2 & Hframe2).
  exists registry2. split; [exact Hres2|].
  intros Hfresh Hother.
  rewrite before_terminator_normalize, map_param_name_normalize in Hsub1, Hsub2.
  rewrite map_app, elem_of_app in Hother.
  assert (before_terminator p_ei_activity_name pre = pre) as Hbt.
  { clear -Hpre. induction Hpre as [|r pre Hr _ IH]; cbn; [reflexivity|].
    rewrite Hr, IH. reflexivity. }
  rewrite Hbt in Hsub1.
  rewrite Hframe2, Hframe1; [exact Hfresh|..];
    intros Hin; apply Hother; [left|right]; eapply elem_of_sublist; eassumption.
Qed.

(** ** The custom sheet *)

Abbreviation act_eqb := (fun a b : Act => bool_decide (a = b)).

Lemma dict_get_set_eq (k : Act) (v : Obj) d :
  dict_get act_eqb k (dict_set act_eqb k v d) = Some v.
Proof.
  induction d as [|[k' v'] d IH]; cbn.
  - rewrite bool_decide_eq_true_2; done.
  - destruct (bool_decide (k' = k)) eqn:Hk; cbn; rewrite Hk; [reflexivity|exact IH].
Qed.

Lemma dict_get_set_ne (k k' : Act) (v : Obj) d :
  k <> k' -> dict_get act_eqb k' (dict_set act_eqb k v d) = dict_get act_eqb k' d.
Proof.
  intros Hne. induction d as [|[k0 v0] d IH]; cbn.
  - rewrite bool_decide_eq_false_2; done.
  - destruct (bool_decide (k0 = k)) eqn:Hk; cbn.
    + apply bool_decide_eq_true_1 in Hk. subst k0.
      rewrite !bool_decide_eq_false_2; done.
    + destruct (bool_decide (k0 = k')); [reflexivity|exact IH].
Qed.

Lemma dict_get_accumulate_eq a v d :
  dict_get act_eqb a (accumulate agb a v d)
  = Some (match dict_get act_eqb a d with
          | Some old => py_add agb old v
          | None => v
          end).
Proof.
  unfold accumulate. destruct (dict_get act_eqb a d); apply dict_get_set_eq.
Qed.

Lemma dict_get_accumulate_ne a a' v d :
  a <> a' -> dict_get act_eqb a' (accumulate agb a v d) = dict_get act_eqb a' d.
Proof.
  intros Hne. unfold accumulate.
  destruct (dict_get act_eqb a d); apply dict_get_set_ne; exact Hne.
Qed.

(** Folding [accumulate] over the contributions adds, for each activity,
    its values in order to the entry it had. *)
Lemma dict_get_fold_accumulate outcomes d a :
  dict_get act_eqb a
    (fold_left (fun acc p => accumulate agb p.1 p.2 acc) outcomes d)
  = match dict_get act_eqb a d with
    | Some old => Some (fold_left (py_add agb) (values_for a outcomes) old)
    | None => sum_of agb (values_for a outcomes)
    end.
Proof.
  revert d. induction outcomes as [|[a' v] outcomes IH]; intros d.
  - cbn. destruct (dict_get act_eqb a d); reflexivity.
  - cbn [fold_left]. rewrite IH. unfold values_for. cbn [List.filter fst snd].
    destruct (decide (a' = a)) as [->|Hne].
    + rewrite bool_decide_eq_true_2 by done. rewrite dict_get_accumulate_eq.
      cbn. destruct (dict_get act_eqb a d); reflexivity.
    + rewrite bool_decide_eq_false_2 by done.
      rewrite dict_get_accumulate_ne by done. reflexivity.
Qed.

Lemma custom_row_outcome sheet db registry index row accumulated w :
  let o := custom_row agb sheet db registry index row accumulated w in
  out_world o = (row_outcome agb sheet db registry row w).1
  /\ out_result o
     = Ok (match (row_outcome agb sheet db registry row w).2 with
           | Some p => accumulate agb p.1 p.2 accumulated
           | None => accumulated
           end).
Proof.
  unfold custom_row, row_outcome, eval_parameter, try_except, bind, invoke, print, ret.
  destruct (total_find_activity (ei_activity_name row) (loc row)
              (custom_process_name row) (modified_process_name row) db w)
    as [found Hfound].
  destruct (find_activity agb _ _ _ _ db w) as [[w1 t1] r1].
  cbn in Hfound. subst r1. cbn.
  destruct found as [activity|]; [|split; reflexivity].
  destruct (py_eval agb _ registry w1) as [w2 [value|e]]; split; reflexivity.
Qed.

Lemma custom_rows_step sheet db registry index row rest accumulated w :
  isna (ei_activity_name row) = false ->
  custom_rows agb sheet db registry index (row :: rest) accumulated w
  = bind (custom_row agb sheet db registry index row accumulated)
         (fun acc => custom_rows agb sheet db registry (S index) rest acc) w.
Proof. intros Hn. cbn [custom_rows]. rewrite Hn. reflexivity. Qed.

(** The row loop returns the fold of [accumulate] over the contributions. *)
Lemma custom_rows_outcomes sheet db registry index rows accumulated w :
  out_result (custom_rows agb sheet db registry index rows accumulated w)
  = Ok (fold_left (fun acc p => accumulate agb p.1 p.2 acc)
                  (sheet_outcomes agb sheet db registry rows w) accumulated).
Proof.
  revert index accumulated w.
  induction rows as [|row rest IH]; intros index accumulated w.
  - reflexivity.
  - cbn [sheet_outcomes]. destruct (isna (ei_activity_name row)) eqn:Hn.
    + cbn [custom_rows]. rewrite Hn. reflexivity.
    + rewrite custom_rows_step by exact Hn.
      destruct (custom_row_outcome sheet db registry index row accumulated w)
        as [Hw Hr].
      unfold bind.
      destruct (custom_row agb sheet db registry index row accumulated w)
        as [[w1 t1] r1].
      cbn in Hw, Hr. subst w1 r1.
      specialize (IH (S index)).
      destruct (row_outcome agb sheet db registry row w) as [w1 [[a v]|]];
        cbn [fst snd];
        match goal with
        | |- context [custom_rows agb sheet db registry (S index) rest ?acc ?w'] =>
            specialize (IH acc w');
            destruct (custom_rows agb sheet db registry (S index) rest acc w')
              as [[w2 t2] r2]
        end; cbn in IH |- *; exact IH.
Qed.

(** The custom branch, laid out: the line naming the sheet, the row loop,
    one call creating the activity, and the line reporting that call if it
    raised. *)
Lemma custom_sheet_run sheet sheet_unit rows db registry w :
  exists accumulated,
    out_result (custom_rows agb sheet db registry 0 rows [] w) = Ok accumulated
    /\ custom_sheet agb sheet sheet_unit rows db registry w
       = let o := custom_rows agb sheet db registry 0 rows [] w in
         let created := agb_newActivity agb db (CStr sheet) sheet_unit
                                        accumulated (out_world o) in
         (created.1,
          Print ("Processing sheet: " ++ sheet)
          :: out_trace o
          ++ Call (NewActivity db (CStr sheet) sheet_unit accumulated)
                  (raised created.2)
          :: match created.2 with
             | Ok _ => []
             | Raise e =>
                 [Print ("Error creating custom activity '" ++ sheet ++ "': "
                         ++ exn_msg e ++ " " ++ newline)]
             end,
          Ok tt).
Proof.
  destruct (total_custom_rows sheet db registry 0 rows [] w) as [accumulated Hacc].
  exists accumulated. split; [exact Hacc|].
  unfold custom_sheet, try_except, bind, invoke, print.
  destruct (custom_rows agb sheet db registry 0 rows [] w) as [[w1 t1] r1].
  cbn in Hacc. subst r1. cbn.
  destruct (agb_newActivity agb db (CStr sheet) sheet_unit accumulated w1)
    as [w2 [[]|e]]; cbn; rewrite ?app_nil_r; reflexivity.
Qed.


Lemma custom_sheet_calls sheet sheet_unit rows db registry w :
  exists accumulated err,
    out_result (custom_rows agb sheet db registry 0 rows [] w) = Ok accumulated
    /\ List.filter is_new_activity
         (out_trace (custom_sheet agb sheet sheet_unit rows db registry w))
       = [Call (NewActivity db (CStr sheet) sheet_unit accumulated) err].
Proof.
  destruct (custom_sheet_run sheet sheet_unit rows db registry w)
    as (accumulated & Hacc & Hrun).
  exists accumulated,
    (raised (agb_newActivity agb db (CStr sheet) sheet_unit accumulated
               (out_world (custom_rows agb sheet db registry 0 rows [] w))).2).
  split; [exact Hacc|].
  rewrite Hrun. cbv zeta. cbn [out_trace fst snd List.filter is_new_activity].
  rewrite List.filter_app.
  rewrite filter_new_activity_none by apply quiet_custom_rows.
  cbn. destruct (agb_newActivity agb db (CStr sheet) sheet_unit accumulated _).2;
    reflexivity.
Qed.



(** C3. The map handed to the call that creates the activity of a custom
    sheet holds, for every activity, the sum of the values contributed to it
    by the rows that were not skipped, added from the top of the sheet down;
    an activity no row contributes to has no entry.  Two contributions [v1]
    and [v2] to one activity give the single entry [v1 + v2]. *)
Theorem custom_sheet_accumulates_sums sheet sheet_unit rows db registry w :
  exists accumulated err,
    List.filter is_new_activity
      (out_trace (custom_sheet agb sheet sheet_unit rows db registry w))
    = [Call (NewActivity db (CStr sheet) sheet_unit accumulated) err]
    /\ (forall activity,
           dict_get (fun a b : Act => bool_decide (a = b)) activity accumulated
           = sum_of agb (values_for activity
                           (sheet_outcomes agb sheet db registry rows w)))
    /\ (forall activity v1 v2,
           sheet_outcomes agb sheet db registry rows w
           = [(activity, v1); (activity, v2)] ->
           accumulated = [(activity, py_add agb v1 v2)]).
Proof.
  destruct (custom_sheet_calls sheet sheet_unit rows db registry w)
    as (accumulated & err & Hacc & Hcalls).
  pose proof (custom_rows_outcomes sheet db registry 0 rows [] w) as Hout.
  rewrite Hacc in Hout. injection Hout as Hout.
  exists accumulated, err. split; [exact Hcalls|]. split.
  - intros activity. rewrite Hout, dict_get_fold_accumulate. reflexivity.
  - intros activity v1 v2 Hrows. rewrite Hout, Hrows.
    unfold accumulate. cbn [fold_left fst snd dict_get dict_set].
    rewrite !bool_decide_eq_true_2 by done. reflexivity.
Qed.

(** ** The order of the sheets *)



Lemma take_rows_map {A B} (f : A -> B) (rows : list A) indexer :
  take_rows (map f rows) indexer = map f (take_rows rows indexer).
Proof.
  unfold take_rows. induction indexer as [|i indexer IH]; [reflexivity|].
  cbn [omap list_omap]. fold (omap (fun i => map f rows !! i) indexer).
  fold (omap (fun i => rows !! i) indexer). rewrite IH.
  change (map f rows) with (f <$> rows). rewrite list_lookup_fmap.
  destruct (rows !! i); reflexivity.
Qed.



















(** ** Running on after a failure *)

Lemma continues_bind {A B} (body : M World Act Obj A)
    (rest : A -> M World Act Obj B) (whole : M World Act Obj B) :
  total body -> (forall w, whole w = bind body rest w) ->
  continues body rest whole.
Proof.
  intros Htotal Hwhole w.
  destruct (bind_total body rest w Htotal) as (a & Ha & Hrun).
  exists a. split; [exact Ha|]. rewrite Hwhole. exact Hrun.
Qed.







(** ** A unit of work that fails, and what follows it *)















(** ** The terminator row *)

(** X13. The row loop of a custom sheet stops at the first row without a
    process name: what lies below is not looked at, and the world, the
    trace and the accumulated exchanges of the rows above are kept. *)
Lemma custom_rows_terminator sheet db registry index pre stop post accumulated w :
  Forall (fun r => isna (ei_activity_name r) = false) pre ->
  isna (ei_activity_name stop) = true ->
  custom_rows agb sheet db registry index (pre ++ stop :: post) accumulated w
  = (out_world (custom_rows agb sheet db registry index pre accumulated w),
     out_trace (custom_rows agb sheet db registry index pre accumulated w)
     ++ [Print ("Skipping row " ++ pretty (index + length pre) ++ " in sheet '"
                ++ sheet ++ "' as 'EI activity name' is NaN.")],
     out_result (custom_rows agb sheet db registry index pre accumulated w)).
Proof.
  intros Hpre Hstop. revert index accumulated w.
  induction Hpre as [|row pre Hrow _ IH]; intros index accumulated w.
  - cbn [app custom_rows length]. rewrite Hstop, Nat.add_0_r. reflexivity.
  - cbn [app length]. rewrite !custom_rows_step by exact Hrow.
    destruct (total_custom_row sheet db registry index row accumulated w)
      as [acc Hacc].
    unfold bind.
    destruct (custom_row agb sheet db registry index row accumulated w)
      as [[w1 t1] r1]; cbn in Hacc; subst r1.
    rewrite IH.
    destruct (custom_rows agb sheet db registry (S index) pre acc w1)
      as [[w2 t2] r2].
    cbn [out_world out_trace out_result fst snd].
    replace (S index + length pre) with (index + S (length pre)) by lia.
    rewrite app_assoc. reflexivity.
Qed.

(** X14. The row loop of the foreground sheet stops at the first row
    without a process name: what lies below is not looked at, and the world
    and the trace of the rows above are kept. *)
Lemma foreground_rows_terminator selected db registry index pre stop post w :
  Forall (fun r => isna (ei_activity_name r) = false) pre ->
  isna (ei_activity_name stop) = true ->
  foreground_rows agb selected db registry index (pre ++ stop :: post) w
  = (out_world (foreground_rows agb selected db registry index pre w),
     out_trace (foreground_rows agb selected db registry index pre w)
     ++ [Print ("Stopping processing at index " ++ pretty (index + length pre)
                ++ " as 'EI activity name' is NaN.")],
     Ok tt).
Proof.
  intros Hpre Hstop. revert index w.
  induction Hpre as [|row pre Hrow _ IH]; intros index w.
  - cbn [app foreground_rows length]. rewrite Hstop, Nat.add_0_r. reflexivity.
  - cbn [app length foreground_rows]. rewrite Hrow.
    destruct (total_foreground_row selected db registry row w) as [[] Hres].
    unfold bind.
    destruct (foreground_row agb selected db registry row w)
      as [[w1 t1] r1]; cbn in Hres; subst r1.
    rewrite IH.
    destruct (foreground_rows agb selected db registry (S index) pre w1)
      as [[w2 t2] r2].
    cbn [out_world out_trace out_result fst snd].
    replace (S index + length pre) with (index + S (length pre)) by lia.
    rewrite app_assoc. reflexivity.
Qed.

(** The row loop of a modified sheet evaluates the expression of every
    row of the sheet, named or not. *)
Lemma modified_rows_evaluates_every_row sheet registry rows exchanges w :
  length (List.filter is_eval
            (out_trace (modified_rows agb sheet registry rows exchanges w)))
  = length rows.
Proof.
  revert exchanges w. induction rows as [|row rest IH]; intros exchanges w.
  - reflexivity.
  - cbn [modified_rows length].
    unfold bind, modified_row, eval_parameter, try_except, bind, invoke, print, ret.
    destruct (py_eval agb _ registry w) as [w1 [amount|e]];
      cbn [out_trace fst snd app];
      match goal with
      | |- context [modified_rows agb sheet registry rest ?d ?w'] =>
          specialize (IH d w');
          destruct (modified_rows agb sheet registry rest d w') as [[w2 t2] r2]
      end; cbn [out_trace fst snd app List.filter is_eval length] in *;
      rewrite IH; reflexivity.
Qed.

(** * Further properties of the four procedures *)

(** ** The resolver *)

(** X1. Whatever the framework answers, the resolver returns a value, and
    the calls it makes are lookups only: a prefix of the modified-name
    lookup, the custom-name lookup and the base lookup, where a missing
    name is never looked up.  It prints one line per lookup that raised. *)
Theorem find_activity_only_looks_up name location custom modified db w :
  (exists found,
      out_result (find_activity agb name location custom modified db w)
      = Ok found)
  /\ calls_of (out_trace (find_activity agb name location custom modified db w))
     `prefix_of` attempted_lookups name location custom modified db
  /\ length (List.filter is_print
               (out_trace (find_activity agb name location custom modified db w)))
     = length (List.filter is_failed_call
                 (out_trace (find_activity agb name location custom modified db w))).
Proof.
  split; [apply total_find_activity|].
  unfold find_activity, lookup_custom, lookup_base, attempted_lookups,
    base_location, try_except, bind, invoke, ret, print.
  destruct (notna modified), (notna custom), (notna location);
    repeat match goal with
      | |- context [agb_findActivity agb ?n ?d ?w'] =>
          destruct (agb_findActivity agb n d w') as [? [?|?]]
      | |- context [agb_findTechAct agb ?n ?l ?w'] =>
          destruct (agb_findTechAct agb n l w') as [? [?|?]]
      end;
    cbn; (split; [|reflexivity]);
    repeat first [apply prefix_nil | apply prefix_cons | reflexivity].
Qed.

(** ** The parameter builder *)

Lemma params_loop_dom sheet index rows (registry : gmap string Obj) w :
  Forall type_is_str rows ->
  exists registry',
    out_result (params_loop agb sheet index rows registry w) = Ok registry'
    /\ dom registry'
       = dom registry
         ∪ list_to_set
             (assigned_keys (out_trace (params_loop agb sheet index rows registry w))).
Proof.
  intros Hstr. revert index registry w.
  induction Hstr as [|row rest Hrow Hstr IH]; intros index registry w.
  - exists registry. cbn. split; [reflexivity|].
    rewrite union_empty_r_L. reflexivity.
  - destruct (isna (p_ei_activity_name row)) eqn:Hn.
    + rewrite params_loop_stop by assumption. exists registry. cbn.
      split; [reflexivity|]. rewrite union_empty_r_L. reflexivity.
    + destruct Hrow as [s Hs].
      rewrite (params_loop_step _ _ _ _ _ _ s) by assumption.
      set (name := param_name sheet (p_parameter_number row)).
      pose proof (register_param_run name (py_lower agb (py_strip agb s)) row registry w) as Hrun.
      cbv zeta in Hrun. unfold bind.
      destruct (register_param agb name (py_lower agb (py_strip agb s)) row registry w)
        as [[w1 t1] r1]; cbn in Hrun.
      destruct Hrun as [(param & -> & Hkeys) | (-> & Hkeys)].
      * destruct (IH (S index) (<[name := param]> registry) w1)
          as (registry' & Hres & Hdom).
        destruct (params_loop agb sheet (S index) rest _ w1) as [[w2 t2] r2].
        cbn in Hres, Hdom. subst r2. exists registry'. cbn.
        split; [reflexivity|].
        rewrite assigned_keys_app, Hkeys, Hdom, dom_insert_L. cbn.
        rewrite (assoc_L (∪)), (comm_L (∪) (dom registry)). reflexivity.
      * destruct (IH (S index) registry w1) as (registry' & Hres & Hdom).
        destruct (params_loop agb sheet (S index) rest _ w1) as [[w2 t2] r2].
        cbn in Hres, Hdom. subst r2. exists registry'. cbn.
        split; [reflexivity|].
        rewrite assigned_keys_app, Hkeys, Hdom. reflexivity.
Qed.

(** X2. The parameter builder only adds to the registry: after a call
    its keys are the keys it had before together with the keys the call
    assigned, so every assigned key can be looked up afterwards and no key
    is ever removed. *)
Theorem registry_only_grows rows (registry : gmap string Obj) sheet w :
  exists registry',
    out_result (process_parameters agb rows registry sheet w) = Ok registry'
    /\ dom registry'
       = dom registry
         ∪ list_to_set
             (assigned_keys
                (out_trace (process_parameters agb rows registry sheet w)))
    /\ forall key,
        key ∈ assigned_keys
                (out_trace (process_parameters agb rows registry sheet w)) ->
        is_Some (registry' !! key).
Proof.
  destruct (params_loop_dom sheet 0 (map (normalize_type agb) rows) registry w
                            (normalize_type_is_str rows))
    as (registry' & Hres & Hdom).
  exists registry'. split; [exact Hres|]. split; [exact Hdom|].
  intros key Hkey. apply elem_of_dom. unfold process_parameters.
  rewrite Hdom. apply elem_of_union_r, elem_of_list_to_set. exact Hkey.
Qed.

(** A row whose [try] only prints a line: the run is the rows above it,
    that line, and the rows below it from the same world and registry. *)
Lemma process_parameters_row_reported sheet pre row post
    (registry : gmap string Obj) w line :
  Forall (fun r => isna (p_ei_activity_name r) = false) pre ->
  isna (p_ei_activity_name row) = false ->
  (forall registry' w',
      register_param agb (param_name sheet (p_parameter_number row))
                     (py_type_tag agb (p_type row)) (normalize_type agb row) registry' w'
      = (w', [Print line], Ok registry')) ->
  exists registry1,
    out_result (process_parameters agb pre registry sheet w) = Ok registry1
    /\ process_parameters agb (pre ++ row :: post) registry sheet w
       = (out_world
            (params_loop agb sheet (S (length pre)) (map (normalize_type agb) post)
               registry1 (out_world (process_parameters agb pre registry sheet w))),
          out_trace (process_parameters agb pre registry sheet w)
          ++ Print line
          :: out_trace
               (params_loop agb sheet (S (length pre)) (map (normalize_type agb) post)
                  registry1
                  (out_world (process_parameters agb pre registry sheet w))),
          out_result
            (params_loop agb sheet (S (length pre)) (map (normalize_type agb) post)
               registry1 (out_world (process_parameters agb pre registry sheet w)))).
Proof.
  intros Hpre Hrow Hskip. unfold process_parameters.
  rewrite map_app. cbn [map].
  destruct (total_params_loop sheet 0 (map (normalize_type agb) pre) registry
              (normalize_type_is_str pre) w) as [registry1 Hres1].
  exists registry1. split; [exact Hres1|].
  rewrite params_loop_app
    by auto using normalize_type_is_str, normalize_type_names.
  erewrite bind_run
    by (rewrite (out_eta (params_loop agb sheet 0 _ registry w)), Hres1;
        reflexivity).
  rewrite (params_loop_step _ _ _ _ _ _ (py_lower agb (py_strip agb (py_str (p_type row)))))
    by (reflexivity || exact Hrow).
  unfold bind at 1 2 3.
  change (py_lower agb (py_strip agb (py_lower agb (py_strip agb
            (py_str (p_type row))))))
    with (py_type_tag agb (p_type row)).
  cbn [p_parameter_number normalize_type]. rewrite Hskip.
  rewrite length_map. cbn [plus].
  destruct (params_loop agb sheet (S (length pre)) (map (normalize_type agb) post)
                        registry1 _) as [[w2 t2] r2].
  reflexivity.
Qed.

(** X3. A float row above the terminator whose "Distrib" cell is empty
    never reaches the framework: [row["Distrib"].upper()] raises inside the
    [try], the builder prints the error, leaves the registry as it was and
    goes on with the rows below. *)
Theorem float_row_without_distribution_is_skipped sheet pre row post
    (registry : gmap string Obj) w :
  Forall (fun r => isna (p_ei_activity_name r) = false) pre ->
  isna (p_ei_activity_name row) = false ->
  py_type_tag agb (p_type row) = "float" ->
  p_distrib row = CNaN ->
  exists registry1,
    out_result (process_parameters agb pre registry sheet w) = Ok registry1
    /\ process_parameters agb (pre ++ row :: post) registry sheet w
       = (out_world
            (params_loop agb sheet (S (length pre)) (map (normalize_type agb) post)
               registry1 (out_world (process_parameters agb pre registry sheet w))),
          out_trace (process_parameters agb pre registry sheet w)
          ++ Print ("Error creating parameter '"
                    ++ param_name sheet (p_parameter_number row)
                    ++ "': 'float' object has no attribute 'upper'")
          :: out_trace
               (params_loop agb sheet (S (length pre)) (map (normalize_type agb) post)
                  registry1
                  (out_world (process_parameters agb pre registry sheet w))),
          out_result
            (params_loop agb sheet (S (length pre)) (map (normalize_type agb) post)
               registry1 (out_world (process_parameters agb pre registry sheet w)))).
Proof.
  intros Hpre Hrow Hty Hdistrib.
  apply process_parameters_row_reported; [exact Hpre | exact Hrow |].
  intros registry' w'. rewrite Hty.
  unfold register_param, new_param, try_except, bind, raise, print, ret.
  cbn [String.eqb Ascii.eqb Bool.eqb p_distrib normalize_type].
  rewrite Hdistrib. reflexivity.
Qed.

(** ** The sheet loop *)





(** ** The foreground builder *)






(** ** The modified branch *)

Lemma modified_row_run sheet registry row exchanges w :
  let evaluated := py_eval agb (param_name sheet (parameter_number row))
                           registry w in
  out_world (modified_row agb sheet registry row exchanges w) = evaluated.1
  /\ calls_of (out_trace (modified_row agb sheet registry row exchanges w))
     = [Eval (param_name sheet (parameter_number row)) registry]
  /\ out_result (modified_row agb sheet registry row exchanges w)
     = Ok (match evaluated.2 with
           | Ok amount =>
               dict_set cell_key_eqb (ei_activity_name row) amount exchanges
           | Raise _ => exchanges
           end).
Proof.
  unfold modified_row, eval_parameter, try_except, bind, invoke, print, ret.
  destruct (py_eval agb _ registry w) as [w1 [amount|e]]; cbn;
    repeat split; reflexivity.
Qed.

Lemma calls_of_app (t1 t2 : list (event Act Obj)) :
  calls_of (t1 ++ t2) = calls_of t1 ++ calls_of t2.
Proof.
  induction t1 as [|[c err|line|key] t1 IH]; cbn; rewrite ?IH; reflexivity.
Qed.

(** X7. The row loop of a modified sheet evaluates the expression of
    every row of the sheet once, from the top down, whether the row names
    an exchange or not, and makes no other call. *)
Theorem modified_rows_evaluate_each_row sheet registry rows exchanges w :
  calls_of (out_trace (modified_rows agb sheet registry rows exchanges w))
  = map (fun row => Eval (param_name sheet (parameter_number row)) registry) rows.
Proof.
  revert exchanges w. induction rows as [|row rest IH]; intros exchanges w.
  - reflexivity.
  - cbn [modified_rows map].
    destruct (modified_row_run sheet registry row exchanges w)
      as (_ & Hcalls & Hres).
    unfold bind.
    destruct (modified_row agb sheet registry row exchanges w) as [[w1 t1] r1].
    cbn [out_trace out_result fst snd] in Hcalls, Hres. subst r1.
    match goal with
    | |- context [modified_rows agb sheet registry rest ?d w1] =>
        specialize (IH d w1);
        destruct (modified_rows agb sheet registry rest d w1) as [[w2 t2] r2]
    end.
    cbn [out_trace fst snd] in IH |- *.
    rewrite calls_of_app, Hcalls, IH. reflexivity.
Qed.

Lemma cell_key_eqb_str_r k name :
  cell_key_eqb k (CStr name) = bool_decide (k = CStr name).
Proof. destruct k; reflexivity. Qed.

Lemma cell_key_eqb_str_l k name :
  cell_key_eqb (CStr name) k = bool_decide (CStr name = k).
Proof. destruct k; reflexivity. Qed.

Lemma dict_get_set_str name k (v : Obj) d :
  dict_get cell_key_eqb (CStr name) (dict_set cell_key_eqb k v d)
  = if bool_decide (k = CStr name) then Some v
    else dict_get cell_key_eqb (CStr name) d.
Proof.
  induction d as [|[k' v'] d IH]; cbn [dict_set dict_get].
  - rewrite cell_key_eqb_str_r. reflexivity.
  - destruct (cell_key_eqb k' k) eqn:Hkk; cbn [dict_get];
      rewrite cell_key_eqb_str_r.
    + destruct (decide (k' = CStr name)) as [->|Hne].
      * rewrite cell_key_eqb_str_l in Hkk.
        apply bool_decide_eq_true_1 in Hkk. subst k.
        rewrite !bool_decide_eq_true_2 by reflexivity. reflexivity.
      * rewrite (bool_decide_eq_false_2 (k' = CStr name)) by exact Hne.
        destruct (decide (k = CStr name)) as [->|Hne'].
        -- rewrite cell_key_eqb_str_r in Hkk.
           apply bool_decide_eq_true_1 in Hkk. contradiction.
        -- rewrite bool_decide_eq_false_2 by exact Hne'. reflexivity.
    + rewrite IH.
      destruct (decide (k' = CStr name)) as [->|Hne].
      * rewrite (bool_decide_eq_true_2 (CStr name = CStr name)) by reflexivity.
        destruct (decide (k = CStr name)) as [->|Hne'].
        -- rewrite cell_key_eqb_str_l in Hkk.
           apply bool_decide_eq_false_1 in Hkk. contradiction.
        -- rewrite bool_decide_eq_false_2 by exact Hne'. reflexivity.
      * rewrite (bool_decide_eq_false_2 (k' = CStr name)) by exact Hne.
        reflexivity.
Qed.

Lemma amounts_for_cons name k (v : Obj) outcomes :
  amounts_for name ((k, v) :: outcomes)
  = if bool_decide (k = CStr name) then v :: amounts_for name outcomes
    else amounts_for name outcomes.
Proof.
  unfold amounts_for. cbn [List.filter fst].
  destruct (bool_decide (k = CStr name)); reflexivity.
Qed.

Lemma modified_rows_lookup sheet registry rows exchanges w name :
  exists final,
    out_result (modified_rows agb sheet registry rows exchanges w) = Ok final
    /\ dict_get cell_key_eqb (CStr name) final
       = match last (amounts_for name (modified_outcomes agb sheet registry rows w)) with
         | Some amount => Some amount
         | None => dict_get cell_key_eqb (CStr name) exchanges
         end.
Proof.
  revert exchanges w. induction rows as [|row rest IH]; intros exchanges w.
  - exists exchanges. split; reflexivity.
  - cbn [modified_rows modified_outcomes].
    destruct (modified_row_run sheet registry row exchanges w)
      as (Hw & _ & Hres).
    unfold bind.
    destruct (modified_row agb sheet registry row exchanges w) as [[w1 t1] r1].
    cbn [out_world out_result fst snd] in Hw, Hres. subst r1 w1.
    destruct (py_eval agb (param_name sheet (parameter_number row)) registry w)
      as [w1 [amount|e]]; cbn [fst snd] in *.
    + destruct (IH (dict_set cell_key_eqb (ei_activity_name row) amount exchanges)
                   w1) as (final & Hfinal & Hget).
      destruct (modified_rows agb sheet registry rest _ w1) as [[w2 t2] r2].
      cbn [out_result snd] in Hfinal |- *. subst r2.
      exists final. split; [reflexivity|].
      rewrite Hget, dict_get_set_str, amounts_for_cons.
      destruct (bool_decide (ei_activity_name row = CStr name)); [|reflexivity].
      destruct (amounts_for name (modified_outcomes agb sheet registry rest w1))
        as [|x l]; [reflexivity|].
      rewrite (last_cons amount (x :: l)).
      destruct (last (x :: l)); reflexivity.
    + destruct (IH exchanges w1) as (final & Hfinal & Hget).
      destruct (modified_rows agb sheet registry rest _ w1) as [[w2 t2] r2].
      cbn [out_result snd] in Hfinal |- *. subst r2.
      exists final. split; [reflexivity|]. exact Hget.
Qed.

(** X8. In a modified sheet amounts do not add up: for every exchange
    name, the map built by the row loop holds the amount of the last row of
    that name whose expression evaluates, and no entry when there is none. *)
Theorem modified_rows_last_amount_wins sheet registry rows w :
  exists exchanges,
    out_result (modified_rows agb sheet registry rows [] w) = Ok exchanges
    /\ forall name,
        dict_get cell_key_eqb (CStr name) exchanges
        = last (amounts_for name (modified_outcomes agb sheet registry rows w)).
Proof.
  destruct (modified_rows_lookup sheet registry rows [] w "")
    as (exchanges & Hres & _).
  exists exchanges. split; [exact Hres|]. intros name.
  destruct (modified_rows_lookup sheet registry rows [] w name)
    as (exchanges' & Hres' & Hget).
  assert (exchanges' = exchanges) as -> by congruence.
  rewrite Hget.
  destruct (last (amounts_for name (modified_outcomes agb sheet registry rows w)));
    reflexivity.
Qed.

(** X9. The modified branch always returns, and what it asks of the
    framework depends on the first answers only.  When the original activity
    is not found (the lookup raises or gives [None]) nothing is copied,
    evaluated or updated.  When the copy raises, no row is evaluated and
    nothing is updated.  When the copy succeeds, the rows are evaluated and
    the copy receives exactly one update, with the map the rows built,
    whether or not any row evaluated. *)
Theorem modified_sheet_copies_then_updates sheet meta dfs db registry rows w :
  dfs !! sheet = Some rows ->
  out_result (modified_sheet agb sheet meta dfs db registry w) = Ok tt
  /\ match agb_findTechAct agb (ms_original_name meta)
                           (Some (ms_original_location meta)) w with
     | (w1, Ok (Some original)) =>
         match agb_copyActivity agb db original sheet w1 with
         | (w2, Ok new_activity) =>
             exists exchanges,
               out_result (modified_rows agb sheet registry rows [] w2)
               = Ok exchanges
               /\ calls_of (out_trace
                              (modified_sheet agb sheet meta dfs db registry w))
                  = FindTechAct (ms_original_name meta)
                                (Some (ms_original_location meta))
                    :: CopyActivity db original sheet
                    :: calls_of (out_trace
                                   (modified_rows agb sheet registry rows [] w2))
                    ++ [UpdateExchanges new_activity exchanges]
         | (w2, Raise _) =>
             calls_of (out_trace (modified_sheet agb sheet meta dfs db registry w))
             = [FindTechAct (ms_original_name meta)
                            (Some (ms_original_location meta));
                CopyActivity db original sheet]
             /\ out_world (modified_sheet agb sheet meta dfs db registry w) = w2
         end
     | (w1, _) =>
         calls_of (out_trace (modified_sheet agb sheet meta dfs db registry w))
         = [FindTechAct (ms_original_name meta)
                        (Some (ms_original_location meta))]
         /\ out_world (modified_sheet agb sheet meta dfs db registry w) = w1
     end.
Proof.
  intros Hsheet. split.
  { destruct (total_modified_sheet sheet meta dfs db registry w) as [[] Hres].
    exact Hres. }
  unfold modified_sheet, getitem, try_except, bind, invoke, print, ret.
  destruct (agb_findTechAct agb (ms_original_name meta)
                            (Some (ms_original_location meta)) w)
    as [w1 [[original|]|e]]; cbn; [|split; reflexivity..].
  destruct (agb_copyActivity agb db original sheet w1)
    as [w2 [new_activity|e]]; cbn; [|split; reflexivity].
  rewrite Hsheet.
  destruct (modified_rows_lookup sheet registry rows [] w2 "")
    as (exchanges & Hres & _).
  exists exchanges. split; [exact Hres|].
  destruct (modified_rows agb sheet registry rows [] w2) as [[w3 t3] r3].
  cbn in Hres. subst r3. cbn.
  destruct (agb_updateExchanges agb new_activity exchanges w3) as [w4 [[]|e]];
    cbn; rewrite calls_of_app; reflexivity.
Qed.

(** ** The type tag *)























(** ** Columns of the metadata that are read and not used *)

Lemma sort_values_map (g : meta_row -> meta_row) table :
  (forall x, ms_priority (g x) = ms_priority x) ->
  sort_values agb (map g table) = map g (sort_values agb table).
Proof.
  intros Hg. unfold sort_values.
  rewrite map_map, (map_ext _ ms_priority Hg). apply take_rows_map.
Qed.

Lemma filter_name_map (g : meta_row -> meta_row) name table :
  (forall x, ms_name (g x) = ms_name x) ->
  List.filter (fun m => String.eqb (ms_name m) name) (map g table)
  = map g (List.filter (fun m => String.eqb (ms_name m) name) table).
Proof.
  intros Hg. induction table as [|m rest IH]; cbn; [reflexivity|].
  rewrite Hg. destruct (String.eqb (ms_name m) name); cbn; rewrite IH;
    reflexivity.
Qed.

Lemma for_each_ext {A} (body body' : A -> M World Act Obj unit) items w :
  (forall x w', body x w' = body' x w') ->
  for_each body items w = for_each body' items w.
Proof.
  intros Hbody. revert w. induction items as [|x rest IH]; intros w;
    cbn [for_each]; [reflexivity|].
  unfold bind. rewrite Hbody.
  destruct (body' x w) as [[w1 t1] [[]|e]]; [|reflexivity].
  rewrite IH. reflexivity.
Qed.

(** X11. Two columns of the sheet metadata are read and never used: the
    "location" of any sheet and the "unit" of a sheet that is not custom.
    Whatever they hold, the run of the builder is the same. *)
Theorem sheet_location_is_unused (location unit_ : meta_row -> cell)
    table dfs db registry w :
  create_custom_activities agb (map (with_unused_columns location unit_) table)
                           dfs db registry w
  = create_custom_activities agb table dfs db registry w.
Proof.
  unfold create_custom_activities, sorted_sheets.
  rewrite sort_values_map by reflexivity.
  rewrite map_map. cbn [ms_name with_unused_columns].
  apply bind_ext_l. intros w'. apply for_each_ext. clear w w'.
  intros sheet w. unfold process_sheet.
  apply bind_ext. intros sheet_df w'. unfold meta_loc.
  rewrite filter_name_map by reflexivity.
  destruct (List.filter (fun m => String.eqb (ms_name m) sheet) table)
    as [|m [|m' rest]]; cbn [map]; try reflexivity.
  rewrite !bind_ret_l. cbn [ms_type ms_unit with_unused_columns].
  unfold is_custom.
  destruct (cell_is (ms_type m) "custom"); reflexivity.
Qed.

End Properties.


(** * The module at work on the small framework *)

Section Examples.
Import Toy.

Local Open Scope Z_scope.

(** C1 at work: "m" is in the custom database and wins over "c"; when "m"
    is not there, "c" is returned and the base database is not asked. *)
Lemma find_activity_prefers_modified_then_custom_witness :
  find_activity Toy.agb (CStr "steel") CNaN (CStr "c") (CStr "m") "db" ["m"; "c"]
  = (["m"; "c"], [Call (FindActivity (CStr "m") "db") None], Ok (Some "m"))
  /\ find_activity Toy.agb (CStr "steel") CNaN (CStr "c") (CStr "m") "db" ["c"]
     = (["c"],
        [Call (FindActivity (CStr "m") "db") (Some (not_found "m"));
         Print "Failed to find activity 'm' in custom database 'db': no activity named m";
         Call (FindActivity (CStr "c") "db") None],
        Ok (Some "c")).
Proof.
  split.
  - apply (proj1 (find_activity_prefers_modified_then_custom
                    Toy.agb (CStr "steel") CNaN (CStr "c") (CStr "m") "db"
                    ["m"; "c"]));
      reflexivity.
  - apply (proj2 (find_activity_prefers_modified_then_custom
                    Toy.agb (CStr "steel") CNaN (CStr "c") (CStr "m") "db" ["c"])
                 ["c"]
                 [Call (FindActivity (CStr "m") "db") (Some (not_found "m"));
                  Print "Failed to find activity 'm' in custom database 'db': no activity named m"]
                 ["c"] (Some "c")).
    + apply (no_match_failed Toy.agb "activity" (CStr "m") "db" ["c"] ["c"]
                             (not_found "m")); reflexivity.
    + reflexivity.
    + reflexivity.
Defined.

(** C9 at work: "heat" is found with a location and not without one. *)
Lemma find_activity_base_lookup_location_witness :
  find_activity Toy.agb (CStr "heat") (CStr "FR") CNaN CNaN "db" []
  = ([], [Call (FindTechAct (CStr "heat") (Some (CStr "FR"))) None],
     Ok (Some "heat"))
  /\ find_activity Toy.agb (CStr "heat") CNaN CNaN CNaN "db" []
     = ([],
        [Call (FindTechAct (CStr "heat") None) (Some (not_found "heat"));
         Print "Failed to find activity 'heat' in Ecoinvent for location 'nan': no activity named heat"],
        Ok None).
Proof.
  split.
  - apply (find_activity_base_lookup_location
             Toy.agb (CStr "heat") (CStr "FR") CNaN CNaN "db"
             [] [] [] [] [] [] (Ok (Some "heat")));
      first [apply no_match_missing; reflexivity | reflexivity].
  - apply (find_activity_base_lookup_location
             Toy.agb (CStr "heat") CNaN CNaN CNaN "db"
             [] [] [] [] [] [] (Raise (not_found "heat")));
      first [apply no_match_missing; reflexivity | reflexivity].
Defined.

(** C8 at work: nothing is found anywhere. *)
Lemma find_activity_all_lookups_fail_witness :
  find_activity Toy.agb (CStr "heat") CNaN (CStr "c") (CStr "m") "db" []
  = ([],
     [Call (FindActivity (CStr "m") "db") (Some (not_found "m"));
      Print "Failed to find activity 'm' in custom database 'db': no activity named m";
      Call (FindActivity (CStr "c") "db") (Some (not_found "c"));
      Print "Failed to find custom process 'c' in custom database 'db': no activity named c";
      Call (FindTechAct (CStr "heat") None) (Some (not_found "heat"));
      Print "Failed to find activity 'heat' in Ecoinvent for location 'nan': no activity named heat"],
     Ok None).
Proof.
  apply (find_activity_all_lookups_fail
           Toy.agb (CStr "heat") CNaN (CStr "c") (CStr "m") "db"
           [] [] (not_found "m") [] (not_found "c") [] (not_found "heat"));
    reflexivity.
Defined.

(** C3 at work: amounts 2 and 3 for one activity reach the framework
    as 5. *)
Lemma custom_sheet_accumulates_sums_witness :
  exists err,
    List.filter is_new_activity
      (out_trace (custom_sheet Toy.agb "S" (CStr "kg") steel_twice "db"
                               two_and_three []))
    = [Call (NewActivity "db" (CStr "S") (CStr "kg") [("steel", 5)]) err].
Proof.
  destruct (custom_sheet_accumulates_sums
              Toy.agb "S" (CStr "kg") steel_twice "db" two_and_three [])
    as (accumulated & err & Hcalls & _ & Htwo).
  exists err. rewrite Hcalls.
  rewrite (Htwo "steel" 2 3); reflexivity.
Defined.








(** C4 at work, as amended: distinct parameter numbers give distinct
    keys; of two rows with one parameter number, the handle of the second
    is the one the registry keeps. *)
Lemma registry_keys_assigned_once_witness :
  NoDup (assigned_keys
           (out_trace (process_parameters Toy.agb mixed_types ∅ "S" [])))
  /\ exists registry,
      out_result (process_parameters Toy.agb
                    [prow (CStr "steel") 1 (CStr "bool") (CBool true);
                     prow (CStr "heat") 1 (CStr "bool") (CBool false)]
                    ∅ "S" [])
      = Ok registry
      /\ registry !! "S_1" = Some 0.
Proof.
  split.
  - apply (proj2 (proj2 (proj2
             (registry_keys_assigned_once Toy.agb "S" mixed_types ∅ [])))).
    apply (bool_decide_unpack _). vm_compute. exact I.
  - destruct (registry_keys_assigned_once
                Toy.agb "S"
                [prow (CStr "steel") 1 (CStr "bool") (CBool true);
                 prow (CStr "heat") 1 (CStr "bool") (CBool false)]
                ∅ [])
      as (_ & _ & (registry & Hres & Hget & _) & _).
    exists registry. split; [exact Hres|].
    rewrite Hget. vm_compute. reflexivity.
Defined.

(** C4 as stated fails: two distinct rows, at row indices 0 and 1, carry
    the same parameter number, and their key is assigned twice. *)
Lemma registry_key_assigned_twice :
  NoDup [prow (CStr "steel") 1 (CStr "bool") (CBool true);
         prow (CStr "heat") 1 (CStr "bool") (CBool false)]
  /\ assigned_keys
       (out_trace (process_parameters Toy.agb
                     [prow (CStr "steel") 1 (CStr "bool") (CBool true);
                      prow (CStr "heat") 1 (CStr "bool") (CBool false)]
                     ∅ "S" []))
     = ["S_1"; "S_1"]
  /\ ~ NoDup (assigned_keys
                (out_trace (process_parameters Toy.agb
                              [prow (CStr "steel") 1 (CStr "bool") (CBool true);
                               prow (CStr "heat") 1 (CStr "bool") (CBool false)]
                              ∅ "S" []))).
Proof.
  split; [|split].
  - apply NoDup_cons. split; [|apply NoDup_singleton].
    intros Hin. apply list_elem_of_singleton in Hin. discriminate Hin.
  - vm_compute. reflexivity.
  - intros Hnd. vm_compute in Hnd. apply NoDup_cons in Hnd as [Hfresh _].
    apply Hfresh. constructor.
Qed.

(** C7 at work, as amended: the row of type "integer" is reported and
    skipped, its name stays out of the registry, the bool below it is
    registered. *)
Lemma unsupported_type_row_is_skipped_witness :
  exists registry,
    out_result (process_parameters Toy.agb mixed_types ∅ "S" []) = Ok registry
    /\ registry !! "S_2" = None.
Proof.
  destruct (unsupported_type_row_is_skipped
              Toy.agb "S"
              [prow (CStr "steel") 1 (CStr " Float ") (CInt 4)]
              (prow (CStr "steel") 2 (CStr "integer") (CInt 4))
              [prow (CStr "steel") 3 (CStr "bool") (CBool true)]
              ∅ [])
    as (registry1 & _ & _ & registry2 & Hres & Habsent).
  - repeat constructor.
  - reflexivity.
  - apply (bool_decide_unpack _). vm_compute. exact I.
  - exists registry2. split; [exact Hres|].
    apply Habsent.
    + reflexivity.
    + apply (bool_decide_unpack _). vm_compute. exact I.
Defined.

(** C7 as stated fails.  In this sheet row 1 has the unknown type
    "integer" and the parameter number of row 0: its error is reported, yet
    its name is in the registry after the run.  Row 2 is blank, so its type
    tag is "nan": no error is raised or printed for it, the loop ends
    there, and row 3 below it is not processed. *)
Lemma unsupported_rows_outside_the_rule :
  py_type_tag Toy.agb (CStr "integer") = "integer"
  /\ py_type_tag Toy.agb (p_type pblank) = "nan"
  /\ out_trace (process_parameters Toy.agb
                  [prow (CStr "steel") 1 (CStr "bool") (CBool true);
                   prow (CStr "steel") 1 (CStr "integer") (CInt 4);
                   pblank;
                   prow (CStr "steel") 3 (CStr "integer") (CInt 4)]
                  ∅ "S" [])
     = [Call (NewBoolParam "S_1" (CBool true)) None;
        SetItem "S_1";
        Print "Parameter created and registered: S_1";
        Print "Error creating parameter 'S_1': Unsupported parameter type: integer";
        Print "Skipping row 2 as 'EI activity name' is NaN."]
  /\ exists registry,
      out_result (process_parameters Toy.agb
                    [prow (CStr "steel") 1 (CStr "bool") (CBool true);
                     prow (CStr "steel") 1 (CStr "integer") (CInt 4);
                     pblank;
                     prow (CStr "steel") 3 (CStr "integer") (CInt 4)]
                    ∅ "S" [])
      = Ok registry
      /\ registry !! "S_1" = Some 1.
Proof.
  split; [vm_compute; reflexivity|]. split; [vm_compute; reflexivity|].
  split; [vm_compute; reflexivity|].
  eexists. split; [vm_compute; reflexivity|]. vm_compute. reflexivity.
Qed.

(** C2 fails in the modified branch.  On the same rows the custom branch
    stops at the blank row and hands over the exchange of "steel" alone; the
    modified branch goes on and updates "heat" as well. *)
Theorem modified_sheet_runs_past_terminator :
  List.filter is_new_activity
    (out_trace (create_custom_activities Toy.agb
                  [sheet_meta "M" 1 "custom" CNaN]
                  (<["M" := past_the_blank]> ∅) "db" two_and_three_M []))
  = [Call (NewActivity "db" (CStr "M") (CStr "kg") [("steel", 2)]) None]
  /\ List.filter is_update
       (out_trace (create_custom_activities Toy.agb
                     [sheet_meta "M" 1 "modified" (CStr "steel")]
                     (<["M" := past_the_blank]> ∅) "db" two_and_three_M []))
     = [Call (UpdateExchanges "M" [(CStr "steel", 2); (CStr "heat", 3)]) None].
Proof. split; vm_compute; reflexivity. Qed.

(** X2 at work: the key of the one row that registers is in the
    registry afterwards. *)
Lemma registry_only_grows_witness :
  exists registry,
    out_result (process_parameters Toy.agb mixed_types ∅ "S" []) = Ok registry
    /\ is_Some (registry !! "S_3").
Proof.
  destruct (registry_only_grows Toy.agb mixed_types ∅ "S" [])
    as (registry & Hres & _ & Hkeys).
  exists registry. split; [exact Hres|].
  apply Hkeys. apply (bool_decide_unpack _). vm_compute. exact I.
Defined.

(** X3 at work: the float row without distribution is reported, the bool
    below it is registered. *)
Lemma float_row_without_distribution_is_skipped_witness :
  out_trace (process_parameters Toy.agb
               [no_distribution; prow (CStr "steel") 3 (CStr "bool") (CBool true)]
               ∅ "S" [])
  = [Print "Error creating parameter 'S_2': 'float' object has no attribute 'upper'";
     Call (NewBoolParam "S_3" (CBool true)) None;
     SetItem "S_3";
     Print "Parameter created and registered: S_3"].
Proof.
  destruct (float_row_without_distribution_is_skipped
              Toy.agb "S" [] no_distribution
              [prow (CStr "steel") 3 (CStr "bool") (CBool true)] ∅ [])
    as (registry1 & Hres & Hrun).
  - constructor.
  - reflexivity.
  - vm_compute. reflexivity.
  - reflexivity.
  - change ([] ++ no_distribution
               :: [prow (CStr "steel") 3 (CStr "bool") (CBool true)])
      with [no_distribution; prow (CStr "steel") 3 (CStr "bool") (CBool true)]
      in Hrun.
    rewrite Hrun. vm_compute in Hres. injection Hres as <-.
    vm_compute. reflexivity.
Defined.




(** X9 at work: the original is found and copied, the three rows are
    evaluated, and the copy is updated once. *)
Lemma modified_sheet_copies_then_updates_witness :
  calls_of (out_trace (modified_sheet Toy.agb "M"
                         (sheet_meta "M" 1 "modified" (CStr "steel"))
                         (<["M" := past_the_blank]> ∅) "db" two_and_three_M []))
  = [FindTechAct (CStr "steel") (Some (CStr "GLO"));
     CopyActivity "db" "steel" "M";
     Eval "M_1" two_and_three_M;
     Eval "M_nan" two_and_three_M;
     Eval "M_2" two_and_three_M;
     UpdateExchanges "M" [(CStr "steel", 2); (CStr "heat", 3)]].
Proof.
  destruct (modified_sheet_copies_then_updates
              Toy.agb "M" (sheet_meta "M" 1 "modified" (CStr "steel"))
              (<["M" := past_the_blank]> ∅) "db" two_and_three_M
              past_the_blank [])
    as (_ & Hflow).
  - vm_compute. reflexivity.
  - cbn in Hflow. destruct Hflow as (exchanges & Hres & Hcalls).
    rewrite Hcalls. vm_compute in Hres. injection Hres as <-.
    vm_compute. reflexivity.
Defined.

(** X12 at work: the bool below the blank row is not registered. *)
Lemma process_parameters_terminator_witness :
  process_parameters Toy.agb
    ([prow (CStr "steel") 1 (CStr "bool") (CBool true)]
     ++ pblank :: [prow (CStr "steel") 3 (CStr "bool") (CBool true)])
    ∅ "S" []
  = (out_world (process_parameters Toy.agb
                  [prow (CStr "steel") 1 (CStr "bool") (CBool true)] ∅ "S" []),
     out_trace (process_parameters Toy.agb
                  [prow (CStr "steel") 1 (CStr "bool") (CBool true)] ∅ "S" [])
     ++ [Print "Skipping row 1 as 'EI activity name' is NaN."],
     out_result (process_parameters Toy.agb
                   [prow (CStr "steel") 1 (CStr "bool") (CBool true)] ∅ "S" [])).
Proof.
  apply (process_parameters_terminator
           Toy.agb "S" [prow (CStr "steel") 1 (CStr "bool") (CBool true)] pblank
           [prow (CStr "steel") 3 (CStr "bool") (CBool true)] ∅ []).
  - repeat constructor.
  - reflexivity.
Defined.

(** X13 at work: the custom rows below the blank row add nothing. *)
Lemma custom_rows_terminator_witness :
  out_result (custom_rows Toy.agb "S" "db" two_and_three 0
                ([row (CStr "steel") CNaN 1 CNaN CNaN]
                 ++ blank :: [row (CStr "electricity") CNaN 2 CNaN CNaN])
                [] [])
  = Ok [("steel", 2)].
Proof.
  rewrite (custom_rows_terminator
             Toy.agb "S" "db" two_and_three 0
             [row (CStr "steel") CNaN 1 CNaN CNaN] blank
             [row (CStr "electricity") CNaN 2 CNaN CNaN] [] []).
  - vm_compute. reflexivity.
  - repeat constructor.
  - reflexivity.
Defined.

(** X14 at work: the foreground row below the blank row creates
    nothing. *)
Lemma foreground_rows_terminator_witness :
  created_names
    (out_trace (foreground_rows Toy.agb "F" "db" two_and_three_F 0
                  ([row (CStr "steel") CNaN 1 CNaN CNaN]
                   ++ blank :: [row (CStr "electricity") CNaN 2 CNaN CNaN])
                  []))
  = [CStr "act_1"].
Proof.
  rewrite (foreground_rows_terminator
             Toy.agb "F" "db" two_and_three_F 0
             [row (CStr "steel") CNaN 1 CNaN CNaN] blank
             [row (CStr "electricity") CNaN 2 CNaN CNaN] []).
  - vm_compute. reflexivity.
  - repeat constructor.
  - reflexivity.
Defined.

End Examples.
